(** * ssh-api: the parameter validator, the command invoker and the two
    front-end adapters, embedded from [src/exec_ssh.py], [src/api/api.py]
    and [src/mcp/server.py].

    Python values that arrive from JSON are modelled by the type [json];
    dictionaries are stdpp finite maps keyed by strings.  Everything the
    code obtains from outside the interpreter (file system, environment
    variables, the child process, the clock, the JSON parser) is a field
    of the record [Env]; the effects the code performs (reading the clock,
    spawning and killing a process, raising an exception) are threaded
    through a small state-and-exception monad over [World]. *)

From Stdlib Require Import ZArith QArith Qround String Ascii DecimalString.
From stdpp Require Import gmap strings list.

Set Warnings "-register-all".
Local Open Scope string_scope.
Local Open Scope Z_scope.

(** ** Python values *)

Inductive json : Type :=
  | JNull
  | JBool (b : bool)
  | JInt (z : Z)
  | JFloat (q : Q)
  | JStr (s : string)
  | JList (l : list json)
  | JDict (m : gmap string json).

(** [bool(v)]: the truth value Python gives to [v]. *)
Definition truthy (v : json) : bool :=
  match v with
  | JNull => false
  | JBool b => b
  | JInt z => negb (z =? 0)
  | JFloat q => negb (Qeq_bool q 0)
  | JStr s => negb (s =? "")%string
  | JList l => match l with [] => false | _ => true end
  | JDict m => match map_to_list m with [] => false | _ => true end
  end.

(** [d.get(k)]: the value under [k], or [None] (here [JNull]). *)
Definition dict_get (d : gmap string json) (k : string) : json :=
  default JNull (d !! k).

(** [d.get(k, dflt)]. *)
Definition dict_get_default (d : gmap string json) (k : string) (dflt : json) : json :=
  default dflt (d !! k).

(** [isinstance(v, int)] together with the integer it denotes; [bool] is a
    subclass of [int] in Python, [True] being 1 and [False] 0. *)
Definition as_int (v : json) : option Z :=
  match v with
  | JInt z => Some z
  | JBool b => Some (if b then 1 else 0)
  | _ => None
  end.

(** [str(n)] for an integer. *)
Definition str_int (z : Z) : string := NilZero.string_of_int (Z.to_int z).

(** [len(s)]. *)
Definition len (s : string) : Z := Z.of_nat (String.length s).

(** [s.startswith(p)]. *)
Definition startswith (s p : string) : bool := String.prefix p s.

(** [needle in s] for strings. *)
Fixpoint contains (needle s : string) : bool :=
  String.prefix needle s ||
  match s with
  | EmptyString => false
  | String _ s' => contains needle s'
  end.

(** Characters [str.strip()] removes (code points below 256). *)
Definition is_space (c : ascii) : bool :=
  let n := nat_of_ascii c in
  ((9 <=? n) && (n <=? 13) || (28 <=? n) && (n <=? 32) || (n =? 133) || (n =? 160))%nat.

Fixpoint lstrip_by (p : ascii -> bool) (s : string) : string :=
  match s with
  | EmptyString => EmptyString
  | String c s' => if p c then lstrip_by p s' else s
  end.

Fixpoint rstrip_by (p : ascii -> bool) (s : string) : string :=
  match s with
  | EmptyString => EmptyString
  | String c s' =>
      match rstrip_by p s' with
      | EmptyString => if p c then EmptyString else String c EmptyString
      | r => String c r
      end
  end.

(** [s.strip()]. *)
Definition strip (s : string) : string := rstrip_by is_space (lstrip_by is_space s).

(** ** Parameter validator ([validate_ssh_parameters], identical in
    [api/api.py] and [mcp/server.py]) *)

Definition MAX_COMMAND_LENGTH : Z := 8192.
Definition MAX_HOST_LENGTH : Z := 253.
Definition MAX_USER_LENGTH : Z := 32.
Definition MIN_TIMEOUT : Z := 1.
Definition MAX_TIMEOUT : Z := 3600.
Definition MAX_SSH_DIR_LENGTH : Z := 4096.

(** [not isinstance(v, str) or len(v.strip()) == 0]. *)
Definition not_str_or_blank (v : json) : bool :=
  match v with
  | JStr s => len (strip s) =? 0
  | _ => true
  end.

(** [not isinstance(v, str) or len(v) > n]. *)
Definition not_str_or_longer (n : Z) (v : json) : bool :=
  match v with
  | JStr s => n <? len s
  | _ => true
  end.

(** [not isinstance(v, int) or v < lo or v > hi]. *)
Definition not_int_or_outside (lo hi : Z) (v : json) : bool :=
  match as_int v with
  | Some z => (z <? lo) || (hi <? z)
  | None => true
  end.

(** [v not in ["yes", "no", "accept-new"]]: membership by [==]. *)
Definition not_in_strict_modes (v : json) : bool :=
  match v with
  | JStr s => negb ((s =? "yes") || (s =? "no") || (s =? "accept-new"))%string
  | _ => true
  end.

Definition is_none (v : json) : bool :=
  match v with JNull => true | _ => false end.

Definition validate_ssh_parameters (data : gmap string json) : option string :=
  (* Required parameters *)
  if negb (truthy (dict_get data "host")) then
    Some "Missing required parameter: host"
  else if negb (truthy (dict_get data "command")) then
    Some "Missing required parameter: command"
  else
  (* Validate host; data["host"] is present here, its value was truthy *)
  let host := dict_get data "host" in
  if not_str_or_blank host then
    Some "Host must be a non-empty string"
  else if not_str_or_longer MAX_HOST_LENGTH host then
    Some ("Host length exceeds maximum of " ++ str_int MAX_HOST_LENGTH ++ " characters")
  else
  (* Validate command *)
  let command := dict_get data "command" in
  if not_str_or_blank command then
    Some "Command must be a non-empty string"
  else if not_str_or_longer MAX_COMMAND_LENGTH command then
    Some ("Command length exceeds maximum of " ++ str_int MAX_COMMAND_LENGTH ++ " characters")
  else
  (* Validate optional parameters *)
  let user := dict_get data "user" in
  if negb (is_none user) && not_str_or_longer MAX_USER_LENGTH user then
    Some ("User must be a string with maximum " ++ str_int MAX_USER_LENGTH ++ " characters")
  else
  let port := dict_get data "port" in
  if negb (is_none port) && not_int_or_outside 1 65535 port then
    Some "Port must be an integer between 1 and 65535"
  else
  let timeout := dict_get_default data "timeout" (JInt 60) in
  if not_int_or_outside MIN_TIMEOUT MAX_TIMEOUT timeout then
    Some ("Timeout must be an integer between " ++ str_int MIN_TIMEOUT ++ " and "
          ++ str_int MAX_TIMEOUT ++ " seconds")
  else
  let ssh_dir := dict_get data "ssh_dir" in
  if negb (is_none ssh_dir) && not_str_or_longer MAX_SSH_DIR_LENGTH ssh_dir then
    Some ("SSH directory path must be a string with maximum "
          ++ str_int MAX_SSH_DIR_LENGTH ++ " characters")
  else
  let strict_host_key_checking := dict_get data "strict_host_key_checking" in
  if negb (is_none strict_host_key_checking) && not_in_strict_modes strict_host_key_checking then
    Some "strict_host_key_checking must be one of: yes, no, accept-new"
  else
  let proxy_jump := dict_get data "proxy_jump" in
  if negb (is_none proxy_jump) && not_str_or_longer MAX_HOST_LENGTH proxy_jump then
    Some ("Proxy jump must be a string with maximum " ++ str_int MAX_HOST_LENGTH ++ " characters")
  else
  let allocate_tty := dict_get data "allocate_tty" in
  if negb (is_none allocate_tty) && negb (match allocate_tty with JBool _ => true | _ => false end) then
    Some "allocate_tty must be a boolean"
  else
  let extra_opts := dict_get data "extra_opts" in
  match extra_opts with
  | JNull => None
  | JList opts =>
      if existsb (not_str_or_longer 256) opts then
        Some "Each extra_opts item must be a string with maximum 256 characters"
      else None
  | _ => Some "extra_opts must be an array"
  end.

(** ** The world outside the interpreter *)

(** Exceptions the code raises or lets through, each with its [str(e)];
    a constructor stands for the class and its subclasses, and
    [OtherException] for every class no handler names. *)
Inductive exn : Type :=
  | TimeoutExpired (msg : string)
  | CalledProcessError (returncode : Z) (msg : string)
  | ValueError (msg : string)
  | KeyError (msg : string)
  | OtherException (cls msg : string).

Definition exn_str (e : exn) : string :=
  match e with
  | TimeoutExpired m | CalledProcessError _ m | ValueError m | KeyError m
  | OtherException _ m => m
  end.

Inductive outcome (A : Type) : Type :=
  | Returned (a : A)
  | Raised (e : exn).
Arguments Returned {A} a.
Arguments Raised {A} e.

(** What [json.loads(line)] does: return the value, raise
    [json.JSONDecodeError], or raise something else ([RecursionError] on
    deep nesting, a plain [ValueError] on an integer of too many digits). *)
Inductive loads_result : Type :=
  | Parsed (v : json)
  | JSONDecodeError (msg : string)
  | LoadsRaises (e : exn).

(** What the operating system, the environment and the standard library
    answer.  [env_popen argv] is [None] when [subprocess.Popen(argv)]
    starts the child and [Some e] when it raises [e];
    [env_communicate argv t] is what [proc.communicate(timeout=t)] does:
    return [(returncode, stdout, stderr)] or raise.  [env_clock n] is the
    value of the [n]-th call of [time.time()]; floats are idealised as
    rationals.  [env_float_str] and [env_repr] are [str()] of a float and
    of a list or dictionary.  [env_print resp] is [None] when
    [print(json.dumps(resp), flush=True)] succeeds and [Some e] when it
    raises [e] (a lone surrogate that stdout cannot encode, a closed
    pipe). *)
Record Env : Type := {
  env_home : option string;
  env_pw_dir : string -> option string;
  env_isdir : string -> bool;
  env_exists : string -> bool;
  env_readable : string -> bool;
  env_SSH_DIR : option string;
  env_popen : list string -> option exn;
  env_communicate : list string -> Z -> outcome (Z * string * string);
  env_clock : nat -> Q;
  env_float_str : Q -> string;
  env_repr : list json + gmap string json -> string;
  env_json_loads : string -> loads_result;
  env_print : gmap string json -> option exn;
}.

(** What the code changes: how often the clock was read, the argument
    vectors of the children started so far, and how many were killed. *)
Record World : Type := {
  clock_reads : nat;
  spawned : list (list string);
  killed : nat;
}.

Definition M (A : Type) : Type := World -> outcome A * World.

Definition ret {A} (a : A) : M A := fun w => (Returned a, w).
Definition raise {A} (e : exn) : M A := fun w => (Raised e, w).
Definition bind {A B} (m : M A) (k : A -> M B) : M B :=
  fun w => match m w with
           | (Returned a, w') => k a w'
           | (Raised e, w') => (Raised e, w')
           end.
(** [try: m except ...: h e]; the handler re-raises what it does not catch. *)
Definition try_except {A} (m : M A) (h : exn -> M A) : M A :=
  fun w => match m w with
           | (Returned a, w') => (Returned a, w')
           | (Raised e, w') => h e w'
           end.

Notation "'do' x <- m ; k" := (bind m (fun x => k))
  (at level 10, x name, m at level 100, k at level 200).
Notation "'run' m ; k" := (bind m (fun _ => k))
  (at level 10, m at level 100, k at level 200).

(** [time.time()]. *)
Definition time_time (E : Env) : M Q :=
  fun w => (Returned (env_clock E (clock_reads w)),
            {| clock_reads := S (clock_reads w); spawned := spawned w; killed := killed w |}).

(** [subprocess.Popen(argv, ...)]. *)
Definition popen (E : Env) (argv : list string) : M unit :=
  fun w => match env_popen E argv with
           | Some e => (Raised e, w)
           | None => (Returned tt,
                      {| clock_reads := clock_reads w;
                         spawned := spawned w ++ [argv];
                         killed := killed w |})
           end.

(** [proc.communicate(timeout=t)]. *)
Definition communicate (E : Env) (argv : list string) (t : Z) : M (Z * string * string) :=
  fun w => (env_communicate E argv t, w).

(** [proc.kill()]. *)
Definition kill : M unit :=
  fun w => (Returned tt,
            {| clock_reads := clock_reads w; spawned := spawned w; killed := S (killed w) |}).

(** ** Paths ([posixpath]) *)

Definition slash : ascii := "/"%char.

Definition endswith_slash (s : string) : bool :=
  match String.length s with
  | O => false
  | S n => match String.get n s with
           | Some c => Ascii.eqb c slash
           | None => false
           end
  end.

(** [os.path.join(a, b)] for a [b] that does not start with a slash. *)
Definition path_join (a b : string) : string :=
  if (a =? "")%string || endswith_slash a then a ++ b else a ++ "/" ++ b.

(** [s[i:]]. *)
Definition slice_from (i : nat) (s : string) : string :=
  String.substring i (String.length s - i) s.

(** [os.path.expanduser(path)]. *)
Definition expanduser (E : Env) (path : string) : string :=
  if negb (startswith path "~") then path else
  let i := match String.index 1 "/" path with
           | Some i => i
           | None => String.length path
           end in
  let userhome :=
    if (i =? 1)%nat then env_home E
    else env_pw_dir E (String.substring 1 (i - 1) path) in
  match userhome with
  | None => path
  | Some h =>
      let r := rstrip_by (Ascii.eqb slash) h ++ slice_from i path in
      if (r =? "")%string then "/" else r
  end.

(** ** SSH directory check ([validate_ssh_directory], identical in
    [api/api.py] and [mcp/server.py]) *)

Definition not_allowed_msg : string := "SSH directory path not allowed".

Definition allowed_prefixes (E : Env) : list string :=
  ["/home/"; "/Users/"; expanduser E "~"].

Definition validate_ssh_directory (E : Env) (ssh_dir : string) : option string :=
  if (ssh_dir =? "")%string then None else
  let expanded_path := expanduser E ssh_dir in
  (* Check for directory traversal attempts *)
  if (contains ".." ssh_dir || startswith ssh_dir "/")
     && negb (existsb (startswith expanded_path) (allowed_prefixes E)) then
    Some not_allowed_msg
  else
  (* Check if directory exists and is readable *)
  if negb (env_isdir E expanded_path) then
    Some ("SSH directory does not exist: " ++ expanded_path)
  else if negb (env_readable E expanded_path) then
    Some ("SSH directory is not readable: " ++ expanded_path)
  else None.

(** ** Command invoker ([exec_ssh.py]) *)

Definition EPHEMERAL_DEFAULTS : list string :=
  [ "-o"; "BatchMode=yes";
    "-o"; "UserKnownHostsFile=/dev/null";
    "-o"; "StrictHostKeyChecking=no";
    "-o"; "CheckHostIP=no";
    "-o"; "LogLevel=ERROR" ].

(** An integer argument as validation lets it through: an [int] or, since
    [bool] is a subclass of [int], a [bool]. *)
Inductive pyint : Type :=
  | PInt (z : Z)
  | PBool (b : bool).

Definition pyint_val (p : pyint) : Z :=
  match p with PInt z => z | PBool b => if b then 1 else 0 end.

(** [str(port)]. *)
Definition pyint_str (p : pyint) : string :=
  match p with
  | PInt z => str_int z
  | PBool true => "True"
  | PBool false => "False"
  end.

(** The keyword arguments of [exec_ssh], at the types validated requests
    give them; [None] is Python's [None]. *)
Record SshArgs : Type := {
  host : string;
  command : string;
  user : option string;
  port : option pyint;
  ssh_dir : option string;
  strict_host_key_checking : option string;
  proxy_jump : option string;
  allocate_tty : bool;
  extra_opts : option (list string);
  timeout : Z;
}.

Record SshResult : Type := {
  exit_code : Z;
  stdout : string;
  stderr : string;
  duration_seconds : Q;
}.

(** [if s:] for an optional string. *)
Definition truthy_str (o : option string) : bool :=
  match o with
  | Some s => negb (s =? "")%string
  | None => false
  end.

(** [round(x, 3)]: the nearest multiple of 1/1000, ties to the even one. *)
Definition round3 (x : Q) : Q :=
  let y := (x * inject_Z 1000)%Q in
  let n := Qfloor y in
  let m := match (y - inject_Z n ?= 1 # 2)%Q with
           | Lt => n
           | Gt => n + 1
           | Eq => if Z.even n then n else n + 1
           end in
  (m # 1000)%Q.

(** The option list [opts] as [exec_ssh] has built it when it reaches
    the line [target = ...]. *)
Definition ssh_opts (E : Env) (a : SshArgs) : list string :=
  let opts := EPHEMERAL_DEFAULTS in
  let opts :=
    match port a with
    | Some p => if negb (pyint_val p =? 0) then (opts ++ ["-p"; pyint_str p])%list else opts
    | None => opts
    end in
  let opts :=
    match ssh_dir a with
    | Some d =>
        if negb (d =? "")%string then
          let d := expanduser E d in
          if env_isdir E d then
            let cfg := path_join d "config" in
            if env_exists E cfg then (opts ++ ["-F"; cfg])%list else opts
          else opts
        else opts
    | None => opts
    end in
  let opts :=
    match strict_host_key_checking a with
    | Some v => if negb (v =? "")%string
                then (opts ++ ["-o"; ("StrictHostKeyChecking=" ++ v)%string])%list else opts
    | None => opts
    end in
  let opts :=
    match proxy_jump a with
    | Some j => if negb (j =? "")%string then (opts ++ ["-J"; j])%list else opts
    | None => opts
    end in
  let opts := if allocate_tty a then (opts ++ ["-t"])%list else opts in
  let opts :=
    match extra_opts a with
    | Some [] | None => opts
    | Some xs => (opts ++ xs)%list   (* [str(x) for x in xs]: str of a string is itself *)
    end in
  opts.

(** [f"{user}@{host}" if user else host]. *)
Definition ssh_target (a : SshArgs) : string :=
  if truthy_str (user a) then default "" (user a) ++ "@" ++ host a else host a.

(** The argument vector handed to [subprocess.Popen]. *)
Definition ssh_argv (E : Env) (a : SshArgs) : list string :=
  (["ssh"] ++ ssh_opts E a ++ [ssh_target a; "--"; command a])%list.

Definition exec_ssh (E : Env) (a : SshArgs) : M SshResult :=
  do start <- time_time E;
  let argv := ssh_argv E a in
  run popen E argv;
  do r <- try_except
            (do r <- communicate E argv (timeout a); ret (Some r))
            (fun e => match e with
                      | TimeoutExpired _ => ret None
                      | _ => raise e
                      end);
  match r with
  | None =>
      (* except subprocess.TimeoutExpired *)
      run kill;
      do now <- time_time E;
      ret {| exit_code := 124; stdout := ""; stderr := "timeout";
             duration_seconds := round3 (now - start) |}
  | Some (returncode, out, err) =>
      do now <- time_time E;
      ret {| exit_code := returncode; stdout := out; stderr := err;
             duration_seconds := round3 (now - start) |}
  end.

(** ** Keyword arguments of the call [exec_ssh(host=data["host"], ...)]

    Both adapters build the call the same way.  [call_args] is [None]
    where Python would raise a [TypeError] on the way; validated requests
    never get there (lemma [call_args_validated]). *)

Definition opt_str (v : json) : option (option string) :=
  match v with
  | JNull => Some None
  | JStr s => Some (Some s)
  | _ => None
  end.

Definition opt_pyint (v : json) : option (option pyint) :=
  match v with
  | JNull => Some None
  | JInt z => Some (Some (PInt z))
  | JBool b => Some (Some (PBool b))
  | _ => None
  end.

Fixpoint all_str (l : list json) : option (list string) :=
  match l with
  | [] => Some []
  | JStr s :: l' => option_map (cons s) (all_str l')
  | _ :: _ => None
  end.

Definition opt_strs (v : json) : option (option (list string)) :=
  match v with
  | JNull => Some None
  | JList l => option_map Some (all_str l)
  | _ => None
  end.

Definition call_args (data : gmap string json) (dir : option string) : option SshArgs :=
  match dict_get data "host", dict_get data "command" with
  | JStr h, JStr c =>
      match opt_str (dict_get data "user"), opt_pyint (dict_get data "port"),
            opt_str (dict_get data "strict_host_key_checking"),
            opt_str (dict_get data "proxy_jump") with
      | Some u, Some p, Some s, Some j =>
          match opt_strs (dict_get data "extra_opts"),
                as_int (dict_get_default data "timeout" (JInt 60)) with
          | Some x, Some t =>
              Some {| host := h; command := c; user := u; port := p; ssh_dir := dir;
                      strict_host_key_checking := s; proxy_jump := j;
                      allocate_tty := truthy (dict_get data "allocate_tty");
                      extra_opts := x; timeout := t |}
          | _, _ => None
          end
      | _, _, _, _ => None
      end
  | _, _ => None
  end.

Definition type_error : exn := OtherException "TypeError" "bad argument type".
(** [type(v).__name__]. *)
Definition py_type_name (v : json) : string :=
  match v with
  | JNull => "NoneType"
  | JBool _ => "bool"
  | JInt _ => "int"
  | JFloat _ => "float"
  | JStr _ => "str"
  | JList _ => "list"
  | JDict _ => "dict"
  end.

(** What [v.get(...)] raises for a [v] that is no dictionary. *)
Definition attribute_error (v : json) : exn :=
  OtherException "AttributeError"
    ("'" ++ py_type_name v ++ "' object has no attribute 'get'").

Definition call_exec_ssh (E : Env) (data : gmap string json) (dir : option string) : M SshResult :=
  match call_args data dir with
  | Some a => exec_ssh E a
  | None => raise type_error
  end.

(** ** HTTP adapter ([api/api.py]) *)

Module Api.

(** What [run_cmd] reads from the Flask request: whether [verify_jwt] and
    [verify_api_key] accept it, [request.is_json], and what
    [request.get_json()] returns or raises. *)
Record HttpRequest : Type := {
  jwt_ok : bool;
  key_ok : bool;
  is_json : bool;
  get_json : outcome json;
}.

(** [jsonify({"error": message})] or [jsonify(res)]. *)
Inductive http_body : Type :=
  | ErrorBody (message : string)
  | ResultBody (res : SshResult).

Record HttpResponse : Type := {
  status : Z;
  body : http_body;
}.

Definition error_response (message : string) (status_code : Z) : HttpResponse :=
  {| status := status_code; body := ErrorBody message |}.

(** [SSH_DIR = os.path.expanduser(os.environ.get("SSH_DIR", "~/.ssh"))]. *)
Definition SSH_DIR (E : Env) : string :=
  expanduser E (default "~/.ssh" (env_SSH_DIR E)).

(** The [try] block of [run_cmd], with [ssh_dir] as the lines before it
    left it. *)
Definition execute (E : Env) (data : gmap string json) (dir : option string) : M HttpResponse :=
  try_except
    (do res <- call_exec_ssh E data dir;
     ret {| status := 200; body := ResultBody res |})
    (fun e =>
       match e with
       | TimeoutExpired _ => ret (error_response "SSH command timed out" 504)
       | CalledProcessError _ m => ret (error_response ("SSH execution failed: " ++ m) 500)
       | _ => ret (error_response ("Internal server error: " ++ exn_str e) 500)
       end).

(** The part of [run_cmd] from [# Validate parameters] on. *)
Definition run_validated (E : Env) (data : gmap string json) : M HttpResponse :=
  let validation_error := validate_ssh_parameters data in
  if truthy_str validation_error then
    ret (error_response (default "" validation_error) 400)
  else
  (* Handle SSH directory with security validation *)
  match dict_get_default data "ssh_dir" (JStr (SSH_DIR E)) with
  | JStr d =>
      if negb (d =? "")%string then
        let ssh_dir_error := validate_ssh_directory E d in
        if truthy_str ssh_dir_error then
          ret (error_response (default "" ssh_dir_error) 400)
        else execute E data (Some (expanduser E d))
      else execute E data (Some d)
  | JNull => execute E data None
  | _ => raise type_error
  end.

Definition run_cmd (E : Env) (request : HttpRequest) : M HttpResponse :=
  (* Authentication *)
  if negb (jwt_ok request || key_ok request) then
    ret (error_response "unauthorized" 401)
  else
  (* Parse JSON with error handling *)
  if negb (is_json request) then
    ret (error_response "Content-Type must be application/json" 400)
  else
  match get_json request with
  | Raised _ => ret (error_response "Invalid JSON format" 400)
  | Returned JNull => ret (error_response "Invalid JSON in request body" 400)
  | Returned (JDict data) => run_validated E data
  | Returned data => raise (attribute_error data)
  end.

End Api.

(** ** JSON-RPC adapter ([mcp/server.py]) *)

Module Mcp.

Definition JSONRPC : string := "2.0".

(** A dictionary literal. *)
Definition obj (l : list (string * json)) : gmap string json := list_to_map l.

(** [jr(id_, result, error)]; [error=None] is [None] here, [result=None]
    is [JNull]. *)
Definition jr (id_ : json) (result : json) (error : option (gmap string json))
    : gmap string json :=
  match error with
  | Some e => obj [("jsonrpc", JStr JSONRPC); ("id", id_); ("error", JDict e)]
  | None => obj [("jsonrpc", JStr JSONRPC); ("id", id_); ("result", result)]
  end.

Definition jerr (id_ : json) (code : Z) (message : string)
    (data : option (gmap string json)) : gmap string json :=
  let error_obj := obj [("code", JInt code); ("message", JStr message)] in
  let error_obj :=
    match data with
    | Some d => if truthy (JDict d) then <["data" := JDict d]> error_obj else error_obj
    | None => error_obj
    end in
  jr id_ JNull (Some error_obj).

Module MCPErrorCodes.
Definition INVALID_PARAMS : Z := -32602.
Definition INTERNAL_ERROR : Z := -32603.
Definition PARSE_ERROR : Z := -32700.
Definition INVALID_REQUEST : Z := -32600.
Definition METHOD_NOT_FOUND : Z := -32601.
Definition SSH_CONNECTION_ERROR : Z := -32001.
Definition SSH_TIMEOUT_ERROR : Z := -32002.
Definition SSH_VALIDATION_ERROR : Z := -32003.
Definition SSH_DIRECTORY_ERROR : Z := -32004.
End MCPErrorCodes.

Definition mcp_initialize (_params : json) : json :=
  JDict (obj [
    ("protocolVersion", JStr "2024-11-05");
    ("capabilities", JDict (obj [("tools", JDict (obj [("listChanged", JBool false)]))]));
    ("serverInfo", JDict (obj [("name", JStr "ssh-api-mcp"); ("version", JStr "1.0.0")]))
  ]).

Definition typed (t : string) : json := JDict (obj [("type", JStr t)]).
Definition described (t d : string) : json :=
  JDict (obj [("type", JStr t); ("description", JStr d)]).

Definition SSH_RUN_INPUT_SCHEMA : json :=
  JDict (obj [
    ("type", JStr "object");
    ("required", JList [JStr "host"; JStr "command"]);
    ("properties", JDict (obj [
       ("host", described "string" "SSH host or alias");
       ("command", described "string" "Non-interactive command to run");
       ("user", typed "string");
       ("port", typed "integer");
       ("ssh_dir", described "string" "Path to ~/.ssh (optional)");
       ("timeout", JDict (obj [("type", JStr "integer"); ("default", JInt 60)]));
       ("strict_host_key_checking",
          JDict (obj [("type", JStr "string");
                      ("enum", JList [JStr "yes"; JStr "no"; JStr "accept-new"])]));
       ("proxy_jump", described "string" "ProxyJump/-J host");
       ("allocate_tty", typed "boolean");
       ("extra_opts",
          JDict (obj [("type", JStr "array");
                      ("items", typed "string");
                      ("description", JStr "Raw ssh(1) flags, each item is one token")]))
     ]))
  ]).

Definition mcp_tools_list (_params : json) : json :=
  JDict (obj [
    ("tools", JList [
       JDict (obj [
         ("name", JStr "ssh");
         ("description",
            JStr "Execute a non-interactive SSH command and return stdout/stderr/exit_code.");
         ("inputSchema", SSH_RUN_INPUT_SCHEMA) ]) ])
  ]).

(** [str(v)] as the f-strings use it; floats, lists and dictionaries are
    printed by the interpreter. *)
Definition py_str (E : Env) (v : json) : string :=
  match v with
  | JNull => "None"
  | JBool true => "True"
  | JBool false => "False"
  | JInt z => str_int z
  | JFloat q => env_float_str E q
  | JStr s => s
  | JList l => env_repr E (inl l)
  | JDict m => env_repr E (inr m)
  end.

Definition nl : string := String (ascii_of_nat 10) EmptyString.

(** [x or y]. *)
Definition py_or (x y : json) : json := if truthy x then x else y.

Definition is_str (v : json) (s : string) : bool :=
  match v with JStr s' => (s' =? s)%string | _ => false end.

(** The call of [exec_ssh] in [mcp_tools_call] and the result built from
    what it returns. *)
Definition execute (E : Env) (arguments : gmap string json) (dir : option string) : M json :=
  do res <- call_exec_ssh E arguments dir;
  ret (JDict (obj [
    ("content", JList [
       JDict (obj [
         ("type", JStr "text");
         ("text", JStr (
            "SSH command completed on " ++ py_str E (dict_get arguments "host")
              ++ ":" ++ nl
            ++ "Exit code: " ++ str_int (exit_code res) ++ nl
            ++ "Duration: " ++ env_float_str E (duration_seconds res) ++ "s" ++ nl
            ++ "Stdout: " ++ stdout res ++ nl
            ++ "Stderr: " ++ stderr res)) ]) ]);
    ("isError", JBool (negb (exit_code res =? 0))) ])).

Definition mcp_tools_call (E : Env) (params : json) : M json :=
  match params with
  | JDict params =>
      let name := dict_get params "name" in
      match py_or (dict_get params "arguments") (JDict ∅) with
      | JDict arguments =>
          if negb (is_str name "ssh") then
            raise (ValueError ("Unknown tool: " ++ py_str E name))
          else
          (* Validate all parameters *)
          let validation_error := validate_ssh_parameters arguments in
          if truthy_str validation_error then
            raise (ValueError ("Invalid parameters: " ++ default "" validation_error))
          else
          (* Handle SSH directory with security validation *)
          match py_or (dict_get arguments "ssh_dir") (JStr (default "" (env_SSH_DIR E))) with
          | JStr d =>
              if negb (d =? "")%string then
                let ssh_dir_error := validate_ssh_directory E d in
                if truthy_str ssh_dir_error then
                  raise (ValueError ("SSH directory error: " ++ default "" ssh_dir_error))
                else execute E arguments (Some (expanduser E d))
              else execute E arguments (Some d)
          | _ => raise type_error
          end
      | arguments =>
          if negb (is_str name "ssh") then
            raise (ValueError ("Unknown tool: " ++ py_str E name))
          else raise (attribute_error arguments)
      end
  | params => raise (attribute_error params)
  end.

Definition handle (E : Env) (req : json) : M (gmap string json) :=
  match req with
  | JDict req =>
      if negb (is_str (dict_get req "jsonrpc") JSONRPC) then
        let req_id := dict_get req "id" in
        let req_id := if is_none req_id then JInt 0 else req_id in
        ret (jerr req_id MCPErrorCodes.INVALID_REQUEST "Invalid Request" None)
      else
      let method := dict_get req "method" in
      let _id := dict_get req "id" in
      (* Ensure ID is never None for proper JSON-RPC compliance *)
      let _id := if is_none _id then JInt 0 else _id in
      let params := py_or (dict_get req "params") (JDict ∅) in
      try_except
        (if is_str method "initialize" then
           ret (jr _id (mcp_initialize params) None)
         else if is_str method "tools/list" then
           ret (jr _id (mcp_tools_list params) None)
         else if is_str method "tools/call" then
           do result <- mcp_tools_call E params;
           ret (jr _id result None)
         else
           ret (jerr _id MCPErrorCodes.METHOD_NOT_FOUND
                  ("Method not found: " ++ py_str E method) None))
        (fun e =>
           match e with
           | ValueError error_msg =>
               if contains "Invalid parameters:" error_msg then
                 ret (jerr _id MCPErrorCodes.SSH_VALIDATION_ERROR error_msg None)
               else if contains "SSH directory error:" error_msg then
                 ret (jerr _id MCPErrorCodes.SSH_DIRECTORY_ERROR error_msg None)
               else
                 ret (jerr _id MCPErrorCodes.INVALID_PARAMS error_msg None)
           | KeyError m =>
               ret (jerr _id MCPErrorCodes.INVALID_PARAMS
                      ("Missing required parameter: " ++ m) None)
           | TimeoutExpired _ =>
               ret (jerr _id MCPErrorCodes.SSH_TIMEOUT_ERROR "SSH command timed out" None)
           | CalledProcessError rc m =>
               ret (jerr _id MCPErrorCodes.SSH_CONNECTION_ERROR
                      ("SSH command failed: " ++ m) (Some (obj [("exit_code", JInt rc)])))
           | OtherException _ m =>
               ret (jerr _id MCPErrorCodes.INTERNAL_ERROR
                      ("Internal server error: " ++ m) None)
           end)
  | _ => ret (jerr (JInt 0) MCPErrorCodes.INVALID_REQUEST "Invalid Request" None)
  end.

(** The response to an unparsable line: no ["id"] key. *)
Definition parse_error_response : gmap string json :=
  obj [("jsonrpc", JStr JSONRPC);
       ("error", JDict (obj [("code", JInt MCPErrorCodes.PARSE_ERROR);
                             ("message", JStr "Parse error: Invalid JSON")]))].

(** One turn of the loop of [main] up to its [print]: the response to
    print for [line], if any.  Only [json.JSONDecodeError] is caught;
    whatever else [json.loads] raises leaves the loop. *)
Definition main_step (E : Env) (line : string) : M (option (gmap string json)) :=
  let line := strip line in
  if (line =? "")%string then ret None
  else
    match env_json_loads E line with
    | JSONDecodeError _ => ret (Some parse_error_response)
    | LoadsRaises e => raise e
    | Parsed req => do resp <- handle E req; ret (Some resp)
    end.

(** [main] on what [for line in sys.stdin] yields, a line or the
    exception of the read ([UnicodeDecodeError]): the responses printed,
    in order, how the loop ended, and the world it left.  Nothing in
    [main] catches an exception of the read, of [main_step] or of
    [print]: the loop ends there, with what was printed before. *)
Fixpoint main (E : Env) (input : list (outcome string)) (w : World)
    : list (gmap string json) * outcome unit * World :=
  match input with
  | [] => ([], Returned tt, w)
  | Raised e :: _ => ([], Raised e, w)
  | Returned line :: rest =>
      match main_step E line w with
      | (Raised e, w') => ([], Raised e, w')
      | (Returned None, w') => main E rest w'
      | (Returned (Some resp), w') =>
          match env_print E resp with
          | Some e => ([], Raised e, w')
          | None =>
              let '(printed, ending, w'') := main E rest w' in
              (resp :: printed, ending, w'')
          end
      end
  end.

End Mcp.

(** * Vocabulary of the statements *)

(** The world after the [k]-th further clock reading, with [argv] started
    and [dead] more children killed. *)
Definition after_exec (w : World) (k : nat) (argv : list (list string)) (dead : nat) : World :=
  {| clock_reads := k + clock_reads w;
     spawned := spawned w ++ argv;
     killed := dead + killed w |}.

(** Wall-clock time between the reading [exec_ssh] takes before it starts
    the child and the one it takes before it returns. *)
Definition elapsed (E : Env) (w : World) : Q :=
  (env_clock E (S (clock_reads w)) - env_clock E (clock_reads w))%Q.

Definition timeout_result (d : Q) : SshResult :=
  {| exit_code := 124; stdout := ""; stderr := "timeout"; duration_seconds := d |}.

(** The checks of [validate_ssh_parameters], each as the boolean the
    corresponding [if] tests. *)
Record Validated (data : gmap string json) : Prop := {
  v_host_given : truthy (dict_get data "host") = true;
  v_command_given : truthy (dict_get data "command") = true;
  v_host_str : not_str_or_blank (dict_get data "host") = false;
  v_host_len : not_str_or_longer MAX_HOST_LENGTH (dict_get data "host") = false;
  v_command_str : not_str_or_blank (dict_get data "command") = false;
  v_command_len : not_str_or_longer MAX_COMMAND_LENGTH (dict_get data "command") = false;
  v_user :
    negb (is_none (dict_get data "user"))
    && not_str_or_longer MAX_USER_LENGTH (dict_get data "user") = false;
  v_port :
    negb (is_none (dict_get data "port"))
    && not_int_or_outside 1 65535 (dict_get data "port") = false;
  v_timeout :
    not_int_or_outside MIN_TIMEOUT MAX_TIMEOUT
      (dict_get_default data "timeout" (JInt 60)) = false;
  v_ssh_dir :
    negb (is_none (dict_get data "ssh_dir"))
    && not_str_or_longer MAX_SSH_DIR_LENGTH (dict_get data "ssh_dir") = false;
  v_strict :
    negb (is_none (dict_get data "strict_host_key_checking"))
    && not_in_strict_modes (dict_get data "strict_host_key_checking") = false;
  v_proxy_jump :
    negb (is_none (dict_get data "proxy_jump"))
    && not_str_or_longer MAX_HOST_LENGTH (dict_get data "proxy_jump") = false;
  v_allocate_tty :
    match dict_get data "allocate_tty" with JNull | JBool _ => True | _ => False end;
  v_extra_opts :
    match dict_get data "extra_opts" with
    | JNull => True
    | JList opts => existsb (not_str_or_longer 256) opts = false
    | _ => False
    end;
}.

(** What each [if] of [exec_ssh] appends to [opts]. *)
Definition port_opts (a : SshArgs) : list string :=
  match port a with
  | Some p => if negb (pyint_val p =? 0) then ["-p"; pyint_str p] else []
  | None => []
  end.

Definition config_opts (E : Env) (a : SshArgs) : list string :=
  match ssh_dir a with
  | Some d =>
      if negb (d =? "")%string && env_isdir E (expanduser E d)
         && env_exists E (path_join (expanduser E d) "config")
      then ["-F"; path_join (expanduser E d) "config"] else []
  | None => []
  end.

Definition strict_opts (a : SshArgs) : list string :=
  match strict_host_key_checking a with
  | Some v => if negb (v =? "")%string then ["-o"; ("StrictHostKeyChecking=" ++ v)%string] else []
  | None => []
  end.

Definition jump_opts (a : SshArgs) : list string :=
  match proxy_jump a with
  | Some j => if negb (j =? "")%string then ["-J"; j] else []
  | None => []
  end.

Definition tty_opts (a : SshArgs) : list string :=
  if allocate_tty a then ["-t"] else [].

(** The target as the claim words it: [user@host] whenever a user was
    supplied. *)
Definition target_if_supplied (a : SshArgs) : string :=
  match user a with
  | Some u => u ++ "@" ++ host a
  | None => host a
  end.

(** [path] is the directory [dir] or lies below it; [dir] is given
    without a trailing slash. *)
Definition inside_dir (dir path : string) : bool :=
  (path =? dir)%string || startswith path (dir ++ "/").

(** The home directories the allow-list stands for. *)
Definition allowed_dirs (E : Env) : list string :=
  ["/home"; "/Users"; rstrip_by (Ascii.eqb slash) (expanduser E "~")].

(** The ["id"] member of a request; [None] when it is missing or the
    request is no object. *)
Definition request_id (req : json) : json :=
  match req with
  | JDict m => dict_get m "id"
  | _ => JNull
  end.


(** The arguments are turned down by one of the two checks; [msg] is the
    text of the [ValueError] raised. *)
Definition mcp_rejected (E : Env) (arguments : gmap string json) (msg : string) : Prop :=
  (exists e, validate_ssh_parameters arguments = Some e /\
             msg = "Invalid parameters: " ++ e) \/
  (validate_ssh_parameters arguments = None /\
   exists d e,
     Mcp.py_or (dict_get arguments "ssh_dir") (JStr (default "" (env_SSH_DIR E))) = JStr d /\
     validate_ssh_directory E d = Some e /\
     msg = "SSH directory error: " ++ e).

(** A [tools/call] request for the tool [ssh] with these arguments. *)
Definition calls_ssh (req arguments : gmap string json) : Prop :=
  dict_get req "jsonrpc" = JStr "2.0" /\
  dict_get req "method" = JStr "tools/call" /\
  exists params,
    Mcp.py_or (dict_get req "params") (JDict ∅) = JDict params /\
    dict_get params "name" = JStr "ssh" /\
    Mcp.py_or (dict_get params "arguments") (JDict ∅) = JDict arguments.

(** The SSH client is a collaborator of the program, not part of it.  Of
    its behaviour the statements use one rule, that of ssh_config(5): the
    options of the command line are read in the order given and "for each
    parameter, the first obtained value will be used".
    [first_o_value name argv] is the value the client obtains for [name]
    from the [-o name=value] pairs of [argv]: that of the first such
    pair. *)
Fixpoint first_o_value (name : string) (argv : list string) : option string :=
  match argv with
  | [] => None
  | tok :: rest =>
      if (tok =? "-o")%string then
        match rest with
        | [] => None
        | kv :: rest' =>
            if startswith kv (name ++ "=")
            then Some (substring (String.length name + 1)
                                 (String.length kv - (String.length name + 1)) kv)
            else first_o_value name rest'
        end
      else first_o_value name rest
  end.

(** [isinstance(v, bool)]. *)
Definition is_bool (v : json) : bool :=
  match v with JBool _ => true | _ => false end.

(** The constraints in the words of the specification, each on its own:
    a constraint answers [None] when the input satisfies it and its
    message otherwise.  A required field is present when the input has
    the member with a value other than null; an optional field that is
    absent or null satisfies its constraint; an integer is a JSON
    integer, not a boolean.  [required_filled] and [amended_order] are
    the first stage and the order of the amended claim. *)
Module ValidatorSpec.

Definition constraint : Type := gmap string json -> option string.

Definition present (data : gmap string json) (k : string) : bool :=
  match data !! k with
  | None | Some JNull => false
  | Some _ => true
  end.

(** Present and not empty: not [""], [0], [0.0], [false], [[]] or [{}]. *)
Definition filled (data : gmap string json) (k : string) : bool :=
  match data !! k with
  | Some v => truthy v
  | None => false
  end.

Definition required_present : constraint := fun data =>
  if present data "host" then
    if present data "command" then None
    else Some "Missing required parameter: command"
  else Some "Missing required parameter: host".

Definition required_filled : constraint := fun data =>
  if filled data "host" then
    if filled data "command" then None
    else Some "Missing required parameter: command"
  else Some "Missing required parameter: host".

(** A string that is not blank and has at most [n] characters. *)
Definition text_field (k : string) (n : Z) (blank_msg long_msg : string) : constraint :=
  fun data =>
    match data !! k with
    | None => None
    | Some (JStr s) =>
        if (strip s =? "")%string then Some blank_msg
        else if len s <=? n then None else Some long_msg
    | Some _ => Some blank_msg
    end.

(** When given, a string of at most [n] characters. *)
Definition optional_text (k : string) (n : Z) (msg : string) : constraint :=
  fun data =>
    match data !! k with
    | None | Some JNull => None
    | Some (JStr s) => if len s <=? n then None else Some msg
    | Some _ => Some msg
    end.

(** An integer between [lo] and [hi]. *)
Definition in_range (lo hi : Z) (v : json) : bool :=
  match v with
  | JInt z => (lo <=? z) && (z <=? hi)
  | _ => false
  end.

Definition port_range : constraint := fun data =>
  match data !! "port" with
  | None | Some JNull => None
  | Some v => if in_range 1 65535 v then None
              else Some "Port must be an integer between 1 and 65535"
  end.

Definition timeout_range : constraint := fun data =>
  if in_range 1 3600 (default (JInt 60) (data !! "timeout")) then None
  else Some "Timeout must be an integer between 1 and 3600 seconds".

Definition strict_mode : constraint := fun data =>
  match data !! "strict_host_key_checking" with
  | None | Some JNull => None
  | Some (JStr s) =>
      if bool_decide (s ∈ ["yes"; "no"; "accept-new"]) then None
      else Some "strict_host_key_checking must be one of: yes, no, accept-new"
  | Some _ => Some "strict_host_key_checking must be one of: yes, no, accept-new"
  end.

Definition tty_flag : constraint := fun data =>
  match data !! "allocate_tty" with
  | None | Some JNull | Some (JBool _) => None
  | Some _ => Some "allocate_tty must be a boolean"
  end.

Definition short_string (v : json) : bool :=
  match v with
  | JStr s => len s <=? 256
  | _ => false
  end.

Definition extra_opts_list : constraint := fun data =>
  match data !! "extra_opts" with
  | None | Some JNull => None
  | Some (JList l) =>
      if forallb short_string l then None
      else Some "Each extra_opts item must be a string with maximum 256 characters"
  | Some _ => Some "extra_opts must be an array"
  end.

(** The order of the specification. *)
Definition constraint_order : list constraint :=
  [ required_present;
    text_field "host" 253 "Host must be a non-empty string"
      "Host length exceeds maximum of 253 characters";
    text_field "command" 8192 "Command must be a non-empty string"
      "Command length exceeds maximum of 8192 characters";
    optional_text "user" 32 "User must be a string with maximum 32 characters";
    port_range;
    timeout_range;
    optional_text "ssh_dir" 4096
      "SSH directory path must be a string with maximum 4096 characters";
    strict_mode;
    optional_text "proxy_jump" 253 "Proxy jump must be a string with maximum 253 characters";
    tty_flag;
    extra_opts_list ].

(** The order of the amended claim: the first stage asks for filled
    required fields, the others are those of the specification. *)
Definition amended_order : list constraint :=
  required_filled :: List.tl constraint_order.

(** The message of the first constraint of [cs] that [data] violates. *)
Fixpoint first_violation (cs : list constraint) (data : gmap string json) : option string :=
  match cs with
  | [] => None
  | c :: cs' =>
      match c data with
      | Some msg => Some msg
      | None => first_violation cs' data
      end
  end.

End ValidatorSpec.

(** * Example environments and requests *)

Definition world0 : World := {| clock_reads := 0; spawned := []; killed := 0 |}.

(** A machine where every path is a readable directory without a config
    file, [ssh] starts, and the child never answers: [communicate] raises
    [TimeoutExpired]; the clock reads 0 and then 1 + 1/8192 seconds. *)
Definition env_hang : Env := {|
  env_home := Some "/root";
  env_pw_dir := fun _ => None;
  env_isdir := fun _ => true;
  env_exists := fun _ => false;
  env_readable := fun _ => true;
  env_SSH_DIR := None;
  env_popen := fun _ => None;
  env_communicate := fun _ _ => Raised (TimeoutExpired "timed out after 1 seconds");
  env_clock := fun n => match n with O => 0%Q | _ => (8193 # 8192)%Q end;
  env_float_str := fun _ => "1.0";
  env_repr := fun _ => "";
  env_json_loads := fun _ => JSONDecodeError "Expecting value";
  env_print := fun _ => None;
|}.

(** The same machine without an [ssh] binary: [Popen] raises. *)
Definition env_no_ssh : Env := {|
  env_home := Some "/root";
  env_pw_dir := fun _ => None;
  env_isdir := fun _ => true;
  env_exists := fun _ => false;
  env_readable := fun _ => true;
  env_SSH_DIR := None;
  env_popen := fun _ =>
    Some (OtherException "FileNotFoundError" "[Errno 2] No such file or directory: 'ssh'");
  env_communicate := fun _ _ => Returned (0, "", "");
  env_clock := fun n => inject_Z (Z.of_nat n);
  env_float_str := fun _ => "1.0";
  env_repr := fun _ => "";
  env_json_loads := fun _ => JSONDecodeError "Expecting value";
  env_print := fun _ => None;
|}.

(** A machine with an empty file system, where [ssh] answers at once. *)
Definition env_bare : Env := {|
  env_home := Some "/root";
  env_pw_dir := fun _ => None;
  env_isdir := fun _ => false;
  env_exists := fun _ => false;
  env_readable := fun _ => false;
  env_SSH_DIR := None;
  env_popen := fun _ => None;
  env_communicate := fun _ _ => Returned (0, "", "");
  env_clock := fun n => inject_Z (Z.of_nat n);
  env_float_str := fun _ => "0.0";
  env_repr := fun _ => "";
  env_json_loads := fun _ => JSONDecodeError "Expecting value";
  env_print := fun _ => None;
|}.

(** A line of 1000 opening brackets: no JSON, and nested too deep for
    [json.loads], which raises [RecursionError] on it. *)
Definition deep_line : string :=
  string_of_list_ascii (repeat "["%char 1000).

(** A machine whose JSON parser accepts the line [{}], gives up on
    [deep_line] with a [RecursionError] and rejects every other line with
    [JSONDecodeError]. *)
Definition env_rpc : Env := {|
  env_home := Some "/root";
  env_pw_dir := fun _ => None;
  env_isdir := fun _ => true;
  env_exists := fun _ => false;
  env_readable := fun _ => true;
  env_SSH_DIR := None;
  env_popen := fun _ => None;
  env_communicate := fun _ _ => Returned (0, "ok", "");
  env_clock := fun n => inject_Z (Z.of_nat n);
  env_float_str := fun _ => "1.0";
  env_repr := fun _ => "";
  env_json_loads := fun s =>
    if (s =? "{}")%string then Parsed (JDict ∅)
    else if (s =? deep_line)%string then
      LoadsRaises (OtherException "RecursionError"
                     "maximum recursion depth exceeded while decoding a JSON array")
    else JSONDecodeError "Expecting value";
  env_print := fun _ => None;
|}.

Definition data_sleep : gmap string json :=
  list_to_map [("host", JStr "example.com"); ("command", JStr "sleep 100");
               ("timeout", JInt 1)].

Definition args_sleep : SshArgs := {|
  host := "example.com"; command := "sleep 100"; user := None; port := None;
  ssh_dir := Some "/root/.ssh"; strict_host_key_checking := None; proxy_jump := None;
  allocate_tty := false; extra_opts := None; timeout := 1 |}.

Definition request_sleep : Api.HttpRequest := {|
  Api.jwt_ok := true; Api.key_ok := false; Api.is_json := true;
  Api.get_json := Returned (JDict data_sleep) |}.

Definition data_empty_user : gmap string json :=
  list_to_map [("host", JStr "example.com"); ("command", JStr "ls"); ("user", JStr "")].

Definition data_strict : gmap string json :=
  list_to_map [("host", JStr "example.com"); ("command", JStr "uptime");
               ("port", JInt 2222); ("strict_host_key_checking", JStr "accept-new")].

Definition args_strict : SshArgs := {|
  host := "example.com"; command := "uptime"; user := None; port := Some (PInt 2222);
  ssh_dir := None; strict_host_key_checking := Some "accept-new"; proxy_jump := None;
  allocate_tty := false; extra_opts := None; timeout := 60 |}.

Definition data_no_command : gmap string json :=
  list_to_map [("host", JStr "example.com")].




Definition data_blank_host : gmap string json :=
  list_to_map [("host", JStr ""); ("command", JStr "ls")].

Definition data_bool_port : gmap string json :=
  list_to_map [("host", JStr "example.com"); ("command", JStr "ls");
               ("port", JBool true)].

Definition data_two_faults : gmap string json :=
  list_to_map [("host", JStr "example.com"); ("command", JStr "ls");
               ("port", JInt 70000); ("timeout", JInt 0); ("allocate_tty", JStr "yes")].

(** * Further vocabulary and examples *)

From Stdlib Require Import Lqa.

(** [s] has at most [n] characters. *)
Definition at_most (n : Z) (s : string) : Prop := len s <= n.

(** The members [validate_ssh_parameters] and the adapters read. *)
Definition validated_keys : list string :=
  ["host"; "command"; "user"; "port"; "timeout"; "ssh_dir";
   "strict_host_key_checking"; "proxy_jump"; "allocate_tty"; "extra_opts"].

(** The [ssh_dir] that [run_cmd] hands to [exec_ssh] when both checks
    pass: the member of the request, or [SSH_DIR] when there is none,
    expanded unless it is empty; [None] for a null member. *)
Definition api_ssh_dir (E : Env) (data : gmap string json) : option string :=
  match dict_get_default data "ssh_dir" (JStr (Api.SSH_DIR E)) with
  | JStr d => Some (if (d =? "")%string then d else expanduser E d)
  | _ => None
  end.

(** The request passes both checks of [run_cmd]. *)
Definition api_accepted (E : Env) (data : gmap string json) : Prop :=
  validate_ssh_parameters data = None /\
  forall d, dict_get_default data "ssh_dir" (JStr (Api.SSH_DIR E)) = JStr d ->
            validate_ssh_directory E d = None.

(** The same for [mcp_tools_call], whose fallback is the environment
    variable [SSH_DIR], unexpanded, or the empty string. *)
Definition mcp_ssh_dir (E : Env) (arguments : gmap string json) : option string :=
  match Mcp.py_or (dict_get arguments "ssh_dir") (JStr (default "" (env_SSH_DIR E))) with
  | JStr d => Some (if (d =? "")%string then d else expanduser E d)
  | _ => None
  end.

Definition mcp_accepted (E : Env) (arguments : gmap string json) : Prop :=
  validate_ssh_parameters arguments = None /\
  forall d,
    Mcp.py_or (dict_get arguments "ssh_dir") (JStr (default "" (env_SSH_DIR E))) = JStr d ->
    validate_ssh_directory E d = None.

(** The identifier [handle] answers with. *)
Definition response_id (req : gmap string json) : json :=
  if is_none (dict_get req "id") then JInt 0 else dict_get req "id".

(** A machine where [ssh] runs and exits with code 3. *)
Definition env_exit3 : Env := {|
  env_home := Some "/root";
  env_pw_dir := fun _ => None;
  env_isdir := fun _ => true;
  env_exists := fun _ => false;
  env_readable := fun _ => true;
  env_SSH_DIR := None;
  env_popen := fun _ => None;
  env_communicate := fun _ _ => Returned (3, "", "Permission denied");
  env_clock := fun n => inject_Z (Z.of_nat n);
  env_float_str := fun _ => "1.0";
  env_repr := fun _ => "";
  env_json_loads := fun _ => JSONDecodeError "Expecting value";
  env_print := fun _ => None;
|}.

Definition request_sleep_rpc : gmap string json :=
  Mcp.obj [("jsonrpc", JStr "2.0"); ("id", JInt 7); ("method", JStr "tools/call");
           ("params", JDict (Mcp.obj [("name", JStr "ssh");
                                      ("arguments", JDict data_sleep)]))].

Definition args_sleep_rpc : SshArgs := {|
  host := "example.com"; command := "sleep 100"; user := None; port := None;
  ssh_dir := Some ""; strict_host_key_checking := None; proxy_jump := None;
  allocate_tty := false; extra_opts := None; timeout := 1 |}.



(** The line is not blank: [main] answers it. *)
Definition answered (line : string) : bool := negb (strip line =? "")%string.

Definition request_two_faults : gmap string json :=
  Mcp.obj [("jsonrpc", JStr "2.0"); ("id", JInt 7); ("method", JStr "tools/call");
           ("params", JDict (Mcp.obj [("name", JStr "ssh");
                                      ("arguments", JDict data_two_faults)]))].

(** ** Authentication of the HTTP adapter ([api/api.py]) *)

Module ApiAuth.

(** What the process environment and the [jwt] library answer:
    [os.environ.get("JWT_SECRET")], [os.environ.get("API_KEYS")], and
    [jwt.decode(token, secret, algorithms=["HS256"])], which returns the
    payload or raises ([None]). *)
Record AuthEnv : Type := {
  env_JWT_SECRET : option string;
  env_API_KEYS : option string;
  jwt_decode : string -> string -> option (gmap string json);
}.

(** [request.headers.get(name)]. *)
Definition Headers : Type := string -> option string.

(** [s.split(sep)] for a one-character separator. *)
Fixpoint split_on (sep : ascii) (s : string) : list string :=
  match s with
  | EmptyString => [EmptyString]
  | String c r =>
      if Ascii.eqb c sep then EmptyString :: split_on sep r
      else match split_on sep r with
           | h :: t => String c h :: t
           | [] => [String c EmptyString]
           end
  end.

(** [s.split(" ", 1)[1]] for an [s] that holds a space: what follows the
    first one. *)
Fixpoint after_first_space (s : string) : string :=
  match s with
  | EmptyString => EmptyString
  | String c r => if Ascii.eqb c " "%char then r else after_first_space r
  end.

Definition JWT_SECRET (A : AuthEnv) : string := default "dev-secret" (env_JWT_SECRET A).

(** [[k.strip() for k in os.environ.get("API_KEYS", "").split(",") if k.strip()]]. *)
Definition API_KEYS (A : AuthEnv) : list string :=
  List.map strip
    (List.filter (fun k => negb (strip k =? "")%string)
       (split_on ","%char (default "" (env_API_KEYS A)))).

Definition is_ascii (s : string) : bool :=
  forallb (fun c => (nat_of_ascii c <? 128)%nat) (list_ascii_of_string s).

(** [hmac.compare_digest(a, b)] on strings: equality, and a [TypeError]
    when one of them has a character outside ASCII. *)
Definition compare_digest (a b : string) : outcome bool :=
  if is_ascii a && is_ascii b then Returned (a =? b)%string
  else Raised (OtherException "TypeError"
                 "comparing strings with non-ASCII characters is not supported").

(** The loop [for valid in API_KEYS: ...] and the [return False] after it. *)
Fixpoint check_keys (key : string) (valids : list string) : outcome bool :=
  match valids with
  | [] => Returned false
  | valid :: rest =>
      match compare_digest key valid with
      | Returned true => Returned true
      | Returned false => check_keys key rest
      | Raised e => Raised e
      end
  end.

(** The key the request presents: the header [X-API-Key], or what
    follows ["ApiKey "] in [Authorization]. *)
Definition presented_key (headers : Headers) : option string :=
  let key := headers "X-API-Key" in
  if negb (truthy_str key) then
    let auth := default "" (headers "Authorization") in
    if startswith auth "ApiKey " then Some (after_first_space auth) else key
  else key.

Definition verify_api_key (A : AuthEnv) (headers : Headers) : outcome bool :=
  let key := presented_key headers in
  if negb (truthy_str key) || match API_KEYS A with [] => true | _ => false end
  then Returned false
  else check_keys (default "" key) (API_KEYS A).

Definition verify_jwt (A : AuthEnv) (auth_header : option string)
    : option (gmap string json) :=
  if negb (truthy_str auth_header)
     || negb (startswith (default "" auth_header) "Bearer ") then None
  else
    let token := after_first_space (default "" auth_header) in
    jwt_decode A token (JWT_SECRET A).

(** A request as it reaches [run_cmd]. *)
Record RawRequest : Type := {
  headers : Headers;
  raw_is_json : bool;
  raw_get_json : outcome json;
}.

(** [run_cmd] with its two authentication calls: both are made before
    the test [if not (auth_jwt or auth_key)]. *)
Definition run_cmd (A : AuthEnv) (E : Env) (request : RawRequest) : M Api.HttpResponse :=
  let auth_jwt := verify_jwt A (headers request "Authorization") in
  match verify_api_key A (headers request) with
  | Raised e => raise e
  | Returned auth_key =>
      Api.run_cmd E
        {| Api.jwt_ok := match auth_jwt with
                         | Some payload => truthy (JDict payload)
                         | None => false
                         end;
           Api.key_ok := auth_key;
           Api.is_json := raw_is_json request;
           Api.get_json := raw_get_json request |}
  end.

End ApiAuth.

(** A server with the keys [alpha] and [beta] and a decoder that accepts
    the token [good] with an empty payload. *)
Definition auth_two_keys : ApiAuth.AuthEnv := {|
  ApiAuth.env_JWT_SECRET := None;
  ApiAuth.env_API_KEYS := Some " alpha, ,beta ";
  ApiAuth.jwt_decode := fun token _ => if (token =? "good")%string then Some ∅ else None;
|}.

Definition headers_beta : ApiAuth.Headers :=
  fun name => if (name =? "Authorization")%string then Some "ApiKey beta" else None.

Definition headers_empty_token : ApiAuth.Headers :=
  fun name => if (name =? "Authorization")%string then Some "Bearer good" else None.

Definition raw_sleep : ApiAuth.RawRequest := {|
  ApiAuth.headers := headers_empty_token;
  ApiAuth.raw_is_json := true;
  ApiAuth.raw_get_json := Returned (JDict data_sleep) |}.

(** The same server asked with a key that is not ASCII. *)
Definition headers_latin1 : ApiAuth.Headers :=
  fun name =>
    if (name =? "X-API-Key")%string then Some (String (ascii_of_nat 233) "t")
    else if (name =? "Authorization")%string then Some "Bearer good"
    else None.

Definition raw_beta : ApiAuth.RawRequest := {|
  ApiAuth.headers := headers_beta;
  ApiAuth.raw_is_json := true;
  ApiAuth.raw_get_json := Returned (JDict data_no_command) |}.

(** * Properties *)

(** ** What one call of [exec_ssh] does *)

Lemma exec_ssh_spawn_fails E a w e :
  env_popen E (ssh_argv E a) = Some e ->
  exec_ssh E a w = (Raised e, after_exec w 1 [] 0).
Proof.
  intros Hp. unfold exec_ssh, bind, time_time, popen. cbv beta zeta. rewrite Hp.
  unfold after_exec. cbn. by rewrite app_nil_r.
Qed.

Lemma exec_ssh_timeout E a w m :
  env_popen E (ssh_argv E a) = None ->
  env_communicate E (ssh_argv E a) (timeout a) = Raised (TimeoutExpired m) ->
  exec_ssh E a w
  = (Returned (timeout_result (round3 (elapsed E w))), after_exec w 2 [ssh_argv E a] 1).
Proof.
  intros Hp Hc.
  unfold exec_ssh, bind, try_except, time_time, popen, communicate, kill, ret. cbv beta zeta.
  rewrite Hp. cbv beta iota zeta. rewrite Hc. reflexivity.
Qed.

Lemma exec_ssh_completes E a w rc out err :
  env_popen E (ssh_argv E a) = None ->
  env_communicate E (ssh_argv E a) (timeout a) = Returned (rc, out, err) ->
  exec_ssh E a w
  = (Returned {| exit_code := rc; stdout := out; stderr := err;
                 duration_seconds := round3 (elapsed E w) |},
     after_exec w 2 [ssh_argv E a] 0).
Proof.
  intros Hp Hc.
  unfold exec_ssh, bind, try_except, time_time, popen, communicate, ret. cbv beta zeta.
  rewrite Hp. cbv beta iota zeta. rewrite Hc. reflexivity.
Qed.

Lemma exec_ssh_run_raises E a w e :
  env_popen E (ssh_argv E a) = None ->
  env_communicate E (ssh_argv E a) (timeout a) = Raised e ->
  (forall m, e <> TimeoutExpired m) ->
  exec_ssh E a w = (Raised e, after_exec w 1 [ssh_argv E a] 0).
Proof.
  intros Hp Hc Hne.
  unfold exec_ssh, bind, try_except, time_time, popen, communicate, ret, raise. cbv beta zeta.
  rewrite Hp. cbv beta iota zeta. rewrite Hc.
  destruct e; try reflexivity. by destruct (Hne msg).
Qed.

(** [exec_ssh] lets [TimeoutExpired] through only when [Popen] itself
    raised it: the one [communicate] raises is caught. *)
Lemma exec_ssh_raises_timeout E a w m w' :
  exec_ssh E a w = (Raised (TimeoutExpired m), w') ->
  env_popen E (ssh_argv E a) = Some (TimeoutExpired m).
Proof.
  destruct (env_popen E (ssh_argv E a)) as [e|] eqn:Hp.
  - rewrite (exec_ssh_spawn_fails _ _ _ _ Hp). by intros [= ->].
  - destruct (env_communicate E (ssh_argv E a) (timeout a)) as [[[rc out] err]|e] eqn:Hc.
    + by rewrite (exec_ssh_completes _ _ _ _ _ _ Hp Hc).
    + destruct e;
        try (rewrite (exec_ssh_run_raises _ _ _ _ Hp Hc); [by intros [= ?] | done]).
      by rewrite (exec_ssh_timeout _ _ _ _ Hp Hc).
Qed.

Example data_sleep_valid : validate_ssh_parameters data_sleep = None.
Proof. reflexivity. Qed.

Example data_sleep_args :
  call_args data_sleep (Some "/root/.ssh") = Some args_sleep.
Proof. reflexivity. Qed.

(** ** C3: the result of a timed-out invocation *)

(** C3, counterexample.  On [env_hang] the child does not finish within
    the timeout and 1 + 1/8192 seconds pass between the two clock
    readings, yet [duration_seconds] of the result is not that time (it is
    1.0). *)
Lemma timeout_duration_not_elapsed :
  env_communicate env_hang (ssh_argv env_hang args_sleep) (timeout args_sleep)
    = Raised (TimeoutExpired "timed out after 1 seconds") /\
  exists r w',
    exec_ssh env_hang args_sleep world0 = (Returned r, w') /\
    ~ (duration_seconds r == elapsed env_hang world0)%Q.
Proof.
  split; [reflexivity|].
  eexists _, _. split.
  - by apply (exec_ssh_timeout env_hang args_sleep world0 "timed out after 1 seconds").
  - vm_compute. discriminate.
Qed.

(** C3, amended.  When the child does not finish within the timeout,
    [exec_ssh] kills it and returns exactly exit code 124, empty stdout,
    stderr ["timeout"], and as [duration_seconds] the elapsed wall-clock
    time rounded to three decimal digits. *)
Theorem exec_ssh_timeout_result E a w m
    (Hspawn : env_popen E (ssh_argv E a) = None)
    (Hhang : env_communicate E (ssh_argv E a) (timeout a) = Raised (TimeoutExpired m)) :
  exists r w',
    exec_ssh E a w = (Returned r, w') /\
    exit_code r = 124 /\ stdout r = "" /\ stderr r = "timeout" /\
    duration_seconds r = round3 (elapsed E w) /\
    killed w' = S (killed w).
Proof.
  eexists _, _. split; [by apply (exec_ssh_timeout E a w m)|]. by repeat split.
Qed.

Lemma exec_ssh_timeout_result_witness :
  exists r w',
    exec_ssh env_hang args_sleep world0 = (Returned r, w') /\
    exit_code r = 124 /\ stdout r = "" /\ stderr r = "timeout" /\
    duration_seconds r = round3 (elapsed env_hang world0) /\
    killed w' = S (killed world0).
Proof.
  apply (exec_ssh_timeout_result env_hang args_sleep world0 "timed out after 1 seconds");
    reflexivity.
Defined.

(** ** C2: what crosses the boundary of [exec_ssh] *)

(** C2, counterexample.  Where [Popen] cannot start [ssh], [exec_ssh]
    returns no result: the exception leaves it. *)
Lemma exec_ssh_raises_when_spawn_fails :
  validate_ssh_parameters data_sleep = None /\
  call_args data_sleep (Some "/root/.ssh") = Some args_sleep /\
  ~ exists r w', exec_ssh env_no_ssh args_sleep world0 = (Returned r, w').
Proof.
  split; [reflexivity|]. split; [reflexivity|].
  intros (r & w' & H). vm_compute in H. discriminate.
Qed.

(** C2, amended.  [exec_ssh] returns an [SshResult] whenever the child is
    started and [communicate] either returns or times out; when starting
    the child fails, the exception is raised to the caller and no child
    is recorded. *)
Theorem exec_ssh_result_or_spawn_error E a w :
  (env_popen E (ssh_argv E a) = None ->
   (exists x, env_communicate E (ssh_argv E a) (timeout a) = Returned x) \/
   (exists m, env_communicate E (ssh_argv E a) (timeout a) = Raised (TimeoutExpired m)) ->
   exists r w', exec_ssh E a w = (Returned r, w')) /\
  (forall e, env_popen E (ssh_argv E a) = Some e ->
   exists w', exec_ssh E a w = (Raised e, w') /\ spawned w' = spawned w).
Proof.
  split.
  - intros Hp [[[[rc out] err] Hc]|[m Hc]].
    + eexists _, _. by apply exec_ssh_completes.
    + eexists _, _. by apply (exec_ssh_timeout E a w m).
  - intros e Hp. eexists. split; [by apply exec_ssh_spawn_fails|].
    cbn. by rewrite app_nil_r.
Qed.

Lemma exec_ssh_result_or_spawn_error_witness :
  (exists r w', exec_ssh env_hang args_sleep world0 = (Returned r, w')) /\
  (exists w', exec_ssh env_no_ssh args_sleep world0
              = (Raised (OtherException "FileNotFoundError"
                           "[Errno 2] No such file or directory: 'ssh'"), w')
              /\ spawned w' = spawned world0).
Proof.
  split.
  - apply (proj1 (exec_ssh_result_or_spawn_error env_hang args_sleep world0)).
    + reflexivity.
    + right. eexists. reflexivity.
  - apply (proj2 (exec_ssh_result_or_spawn_error env_no_ssh args_sleep world0)).
    reflexivity.
Defined.

(** ** C1: the status of [POST /run] *)

Lemma execute_timeout E data dir a w m :
  call_args data dir = Some a ->
  env_popen E (ssh_argv E a) = None ->
  env_communicate E (ssh_argv E a) (timeout a) = Raised (TimeoutExpired m) ->
  Api.execute E data dir w
  = (Returned {| Api.status := 200;
                 Api.body := Api.ResultBody (timeout_result (round3 (elapsed E w))) |},
     after_exec w 2 [ssh_argv E a] 1).
Proof.
  intros Ha Hp Hc. unfold Api.execute, try_except, bind, call_exec_ssh.
  rewrite Ha. cbv beta. by rewrite (exec_ssh_timeout E a w m Hp Hc).
Qed.

Lemma execute_completes E data dir a w rc out err :
  call_args data dir = Some a ->
  env_popen E (ssh_argv E a) = None ->
  env_communicate E (ssh_argv E a) (timeout a) = Returned (rc, out, err) ->
  Api.execute E data dir w
  = (Returned {| Api.status := 200;
                 Api.body := Api.ResultBody
                   {| exit_code := rc; stdout := out; stderr := err;
                      duration_seconds := round3 (elapsed E w) |} |},
     after_exec w 2 [ssh_argv E a] 0).
Proof.
  intros Ha Hp Hc. unfold Api.execute, try_except, bind, call_exec_ssh.
  rewrite Ha. cbv beta. by rewrite (exec_ssh_completes E a w rc out err Hp Hc).
Qed.

(** The 504 branch of [run_cmd] is taken only if [Popen] itself raises
    [TimeoutExpired]; a child that exceeds the timeout never leads there. *)
Lemma execute_504 E data dir w resp w' :
  Api.execute E data dir w = (Returned resp, w') ->
  Api.status resp = 504 ->
  exists a m, call_args data dir = Some a /\
              env_popen E (ssh_argv E a) = Some (TimeoutExpired m).
Proof.
  unfold Api.execute, try_except, bind, call_exec_ssh.
  destruct (call_args data dir) as [a|] eqn:Ha; cbv beta.
  - destruct (exec_ssh E a w) as [[r|e] w1] eqn:Hx.
    + intros [= <- _]. discriminate.
    + destruct e; intros [= <- _]; try discriminate.
      intros _. exists a, msg. split; [done|].
      by apply (exec_ssh_raises_timeout E a w msg w1).
  - intros [= <- _]. discriminate.
Qed.

(** As [Popen] never raises [TimeoutExpired], [run_cmd] never answers 504. *)
Lemma run_cmd_never_504 E request w resp w' :
  (forall argv m, env_popen E argv <> Some (TimeoutExpired m)) ->
  Api.run_cmd E request w = (Returned resp, w') ->
  Api.status resp <> 504.
Proof.
  intros Hpopen. unfold Api.run_cmd.
  destruct (negb _); [by intros [= <- _]|].
  destruct (negb _); [by intros [= <- _]|].
  destruct (Api.get_json request) as [[| | | | | |data]|e]; try (by intros [= <- _]).
  unfold Api.run_validated. cbv zeta.
  destruct (truthy_str (validate_ssh_parameters data)); [by intros [= <- _]|].
  assert (forall dir, Api.execute E data dir w = (Returned resp, w') ->
                      Api.status resp <> 504) as Hexec.
  { intros dir Hx H504. destruct (execute_504 E data dir w resp w' Hx H504) as (a & m & _ & Hp).
    by apply (Hpopen _ _ Hp). }
  destruct (dict_get_default data "ssh_dir" _) as [| | | |d| |]; try (by intros [= <- _]).
  - apply Hexec.
  - destruct (negb _); [|apply Hexec].
    destruct (truthy_str _); [by intros [= <- _]|apply Hexec].
Qed.

(** C1, at the failing input.  An authenticated, valid [POST /run] whose
    child exceeds the timeout ([env_hang]) is answered with status 200 and
    the sentinel result (exit code 124) as body, not with 504: [exec_ssh]
    has caught [TimeoutExpired] before the handler of [run_cmd] can see
    it. *)
Theorem run_cmd_timeout_answers_200 :
  validate_ssh_parameters data_sleep = None /\
  env_communicate env_hang (ssh_argv env_hang args_sleep) (timeout args_sleep)
    = Raised (TimeoutExpired "timed out after 1 seconds") /\
  Api.run_cmd env_hang request_sleep world0
  = (Returned {| Api.status := 200;
                 Api.body := Api.ResultBody
                   (timeout_result (round3 (elapsed env_hang world0))) |},
     after_exec world0 2 [ssh_argv env_hang args_sleep] 1).
Proof.
  split; [reflexivity|]. split; [reflexivity|].
  vm_compute. reflexivity.
Qed.

(** ** What validation establishes *)

Ltac split_if :=
  match goal with
  | |- context [if ?c then _ else _] => destruct c eqn:?
  end.

Lemma validate_None_inv data :
  validate_ssh_parameters data = None -> Validated data.
Proof.
  unfold validate_ssh_parameters. cbv zeta.
  repeat (split_if; [discriminate|]).
  intros H. split; try assumption.
  - by rewrite negb_false_iff in *.
  - by rewrite negb_false_iff in *.
  - destruct (dict_get data "allocate_tty"); done.
  - destruct (dict_get data "extra_opts"); try done.
    by destruct (existsb _ _).
Qed.

Lemma Validated_valid data :
  Validated data -> validate_ssh_parameters data = None.
Proof.
  intros []. unfold validate_ssh_parameters. cbv zeta.
  repeat match goal with H : _ = _ |- _ => rewrite H; clear H end. cbn.
  destruct (dict_get data "allocate_tty"); try done; cbn;
    destruct (dict_get data "extra_opts"); try done;
    by match goal with H : _ = false |- _ => rewrite H end.
Qed.

Lemma all_str_bounded opts :
  existsb (not_str_or_longer 256) opts = false -> is_Some (all_str opts).
Proof.
  induction opts as [|o opts IH]; [by eexists|].
  cbn. intros [Ho Hr]%orb_false_elim. destruct o; try discriminate.
  destruct (IH Hr) as [l ->]. by eexists.
Qed.

(** Validated requests give every keyword argument a value of the type
    [exec_ssh] works with. *)
Lemma call_args_validated data dir :
  validate_ssh_parameters data = None -> is_Some (call_args data dir).
Proof.
  intros [Hh Hc Hhs Hhl Hcs Hcl Hu Hp Ht Hd Hs Hj Hy Hx]%validate_None_inv.
  unfold call_args.
  destruct (dict_get data "host"); try discriminate.
  destruct (dict_get data "command"); try discriminate.
  destruct (dict_get data "user"); try discriminate;
  destruct (dict_get data "port"); try discriminate;
  destruct (dict_get data "strict_host_key_checking"); try discriminate;
  destruct (dict_get data "proxy_jump"); try discriminate;
  (destruct (dict_get_default data "timeout" (JInt 60)); try discriminate);
  (destruct (dict_get data "extra_opts") as [| | | | |opts|]; try done);
  cbn; try (by eexists);
  by destruct (all_str_bounded opts Hx) as [l ->]; eexists.
Qed.

(** ** C4 and C8: the shape of the argument vector *)

Lemma ssh_opts_stages E a :
  ssh_opts E a
  = (EPHEMERAL_DEFAULTS ++ port_opts a ++ config_opts E a ++ strict_opts a
       ++ jump_opts a ++ tty_opts a ++ default [] (extra_opts a))%list.
Proof.
  unfold ssh_opts, port_opts, config_opts, strict_opts, jump_opts, tty_opts.
  cbv zeta.
  destruct (port a) as [p|]; [destruct (negb (pyint_val p =? 0))|];
  (destruct (ssh_dir a) as [d|];
     [destruct (negb (d =? "")%string); cbn [andb];
        [destruct (env_isdir E (expanduser E d)); cbn [andb];
           [destruct (env_exists E (path_join (expanduser E d) "config"))|]|]|]);
  (destruct (strict_host_key_checking a) as [v|]; [destruct (negb (v =? "")%string)|]);
  (destruct (proxy_jump a) as [j|]; [destruct (negb (j =? "")%string)|]);
  destruct (allocate_tty a);
  (destruct (extra_opts a) as [[|x xs]|]);
  cbn [default]; rewrite <- ?app_assoc, ?app_nil_r; reflexivity.
Qed.

(** C4, counterexample.  The request [{host: "example.com", command: "ls",
    user: ""}] is valid and supplies a user, but the argument vector does
    not end with ["@example.com"; "--"; "ls"]: its target is
    ["example.com"]. *)
Lemma empty_user_target_is_host :
  validate_ssh_parameters data_empty_user = None /\
  exists a, call_args data_empty_user None = Some a /\
    user a = Some "" /\
    (forall E pre, ssh_argv E a <> (pre ++ [target_if_supplied a; "--"; command a])%list) /\
    (forall E, exists pre, ssh_argv E a = (pre ++ ["example.com"; "--"; "ls"])%list).
Proof.
  split; [reflexivity|]. eexists. split; [reflexivity|]. split; [reflexivity|]. split.
  - intros E pre H. apply (f_equal (@rev string)) in H.
    rewrite rev_app_distr in H. vm_compute in H. discriminate.
  - intros E. exists ("ssh" :: EPHEMERAL_DEFAULTS). reflexivity.
Qed.

(** C4, amended.  The argument vector ends with the [extra_opts] entries,
    each verbatim as one token, then the connection target, then ["--"],
    then the command as the single last argument; the target is
    [user@host] when a non-empty user was supplied and [host] otherwise. *)
Theorem ssh_argv_tail E a :
  exists pre,
    ssh_argv E a
    = (pre ++ default [] (extra_opts a)
         ++ [match user a with
             | Some u => if (u =? "")%string then host a else (u ++ "@" ++ host a)%string
             | None => host a
             end; "--"; command a])%list.
Proof.
  exists (["ssh"] ++ EPHEMERAL_DEFAULTS ++ port_opts a ++ config_opts E a ++ strict_opts a
            ++ jump_opts a ++ tty_opts a)%list.
  unfold ssh_argv. rewrite ssh_opts_stages. unfold ssh_target, truthy_str.
  rewrite <- !app_assoc.
  destruct (user a) as [u|]; [destruct (u =? "")%string|]; reflexivity.
Qed.

Lemma call_args_strict data dir a v :
  call_args data dir = Some a ->
  strict_host_key_checking a = Some v ->
  dict_get data "strict_host_key_checking" = JStr v.
Proof.
  unfold call_args. intros H Hv.
  repeat match type of H with
         | match ?x with _ => _ end = Some _ => destruct x eqn:?; try discriminate
         end.
  injection H as <-. cbn in Hv. subst.
  destruct (dict_get data "strict_host_key_checking"); cbn in *; congruence.
Qed.

(** A validated mode is one of the three strings, none of them empty. *)
Lemma validated_strict_nonempty data v :
  validate_ssh_parameters data = None ->
  dict_get data "strict_host_key_checking" = JStr v ->
  (v = "yes" \/ v = "no" \/ v = "accept-new") /\ (v =? "")%string = false.
Proof.
  intros Hv%validate_None_inv Hs. pose proof (v_strict _ Hv) as H.
  rewrite Hs in H. cbn in H. apply negb_false_iff in H.
  assert (v = "yes" \/ v = "no" \/ v = "accept-new") as Hm.
  { apply orb_true_iff in H as [H|H]; [apply orb_true_iff in H as [H|H]|];
      apply String.eqb_eq in H; auto. }
  split; [done|]. by destruct Hm as [->|[->| ->]].
Qed.

(** C8, at the failing inputs.  When a validated request supplies
    [strict_host_key_checking], the argument vector holds the default pair
    ["-o"; "StrictHostKeyChecking=no"] and, strictly after it, the pair
    ["-o"; "StrictHostKeyChecking=<value>"] with the caller's value; the
    client, which keeps the first value it obtains for an option, runs
    with [no] all the same: the caller's value does not win. *)
Theorem strict_default_outranks_override E data dir a v
    (Hvalid : validate_ssh_parameters data = None)
    (Hargs : call_args data dir = Some a)
    (Hmode : strict_host_key_checking a = Some v) :
  (exists pre mid post,
     ssh_argv E a
     = (pre ++ ["-o"; "StrictHostKeyChecking=no"] ++ mid
          ++ ["-o"; ("StrictHostKeyChecking=" ++ v)%string] ++ post)%list) /\
  first_o_value "StrictHostKeyChecking" (ssh_argv E a) = Some "no".
Proof.
  destruct (validated_strict_nonempty data v Hvalid (call_args_strict _ _ _ _ Hargs Hmode))
    as [_ Hne].
  split.
  - exists ["ssh"; "-o"; "BatchMode=yes"; "-o"; "UserKnownHostsFile=/dev/null"],
           (["-o"; "CheckHostIP=no"; "-o"; "LogLevel=ERROR"] ++ port_opts a
              ++ config_opts E a)%list,
           (jump_opts a ++ tty_opts a ++ default [] (extra_opts a)
              ++ [ssh_target a; "--"; command a])%list.
    unfold ssh_argv. rewrite ssh_opts_stages. unfold strict_opts.
    rewrite Hmode, Hne. cbn [negb]. unfold EPHEMERAL_DEFAULTS.
    rewrite <- !app_assoc. reflexivity.
  - unfold ssh_argv. rewrite ssh_opts_stages. reflexivity.
Qed.

Lemma strict_default_outranks_override_witness :
  (exists pre mid post,
     ssh_argv env_hang args_strict
     = (pre ++ ["-o"; "StrictHostKeyChecking=no"] ++ mid
          ++ ["-o"; "StrictHostKeyChecking=accept-new"] ++ post)%list) /\
  first_o_value "StrictHostKeyChecking" (ssh_argv env_hang args_strict) = Some "no".
Proof.
  apply (strict_default_outranks_override env_hang data_strict None args_strict "accept-new");
    reflexivity.
Defined.

(** ** C7 and C10: the allow-list of [validate_ssh_directory] *)



(** A path that begins with the text of the home directory passes the
    allow-list, whatever follows that text. *)
Lemma home_text_prefix_passes E ssh_dir :
  startswith (expanduser E ssh_dir) (expanduser E "~") = true ->
  validate_ssh_directory E ssh_dir <> Some not_allowed_msg.
Proof.
  intros Hpre. unfold validate_ssh_directory.
  destruct (ssh_dir =? "")%string; [done|].
  assert (existsb (startswith (expanduser E ssh_dir)) (allowed_prefixes E) = true) as ->.
  { apply existsb_exists. exists (expanduser E "~"). split; [|done].
    unfold allowed_prefixes. cbn. auto. }
  rewrite andb_false_r.
  destruct (env_isdir E (expanduser E ssh_dir)); cbn.
  - destruct (env_readable E (expanduser E ssh_dir)); cbn; [done|].
    intros H. discriminate H.
  - intros H. discriminate H.
Qed.

(** C10.  With home directory ["/root"], the absolute path ["/rootkit"]
    lies in none of the allowed directories, yet it is not answered with
    "SSH directory path not allowed", on a machine where it exists and on
    one where it does not: the test is [str.startswith] on the text of the
    path. *)
Theorem sibling_of_home_passes_allow_list :
  exists E ssh_dir,
    startswith ssh_dir "/" = true /\
    (forall d, In d (allowed_dirs E) -> inside_dir d (expanduser E ssh_dir) = false) /\
    validate_ssh_directory E ssh_dir <> Some not_allowed_msg /\
    validate_ssh_directory env_bare ssh_dir <> Some not_allowed_msg.
Proof.
  exists env_hang, "/rootkit". split; [reflexivity|]. split.
  - intros d [<-|[<-|[<-|[]]]]; reflexivity.
  - split; by apply home_text_prefix_passes.
Qed.

(** ** C9: identifiers of JSON-RPC responses *)

Lemma jr_id id_ result error : Mcp.jr id_ result error !! "id" = Some id_.
Proof. by destruct error. Qed.

Lemma jerr_id id_ code message data : Mcp.jerr id_ code message data !! "id" = Some id_.
Proof. reflexivity. Qed.

(** [handle] answers every request, and the answer carries the request's
    identifier, or 0 when that is missing or null. *)
Lemma handle_answers E req w :
  exists resp w',
    Mcp.handle E req w = (Returned resp, w') /\
    resp !! "id" = Some (if is_none (request_id req) then JInt 0 else request_id req).
Proof.
  unfold Mcp.handle.
  destruct req as [| | | | | |m]; try (eexists _, _; split; [reflexivity|apply jerr_id]).
  cbn [request_id].
  destruct (negb (Mcp.is_str (dict_get m "jsonrpc") Mcp.JSONRPC)).
  { eexists _, _. split; [reflexivity|apply jerr_id]. }
  unfold try_except.
  destruct (Mcp.is_str (dict_get m "method") "initialize").
  { eexists _, _. split; [reflexivity|apply jr_id]. }
  destruct (Mcp.is_str (dict_get m "method") "tools/list").
  { eexists _, _. split; [reflexivity|apply jr_id]. }
  destruct (Mcp.is_str (dict_get m "method") "tools/call").
  2: { eexists _, _. split; [reflexivity|apply jerr_id]. }
  unfold bind.
  destruct (Mcp.mcp_tools_call E _ w) as [[result|e] w1].
  { eexists _, _. split; [reflexivity|apply jr_id]. }
  destruct e as [msg|rc msg|msg|msg|cls msg];
    try (eexists _, _; split; [reflexivity|apply jerr_id]).
  destruct (contains "Invalid parameters:" msg);
    [|destruct (contains "SSH directory error:" msg)];
    eexists _, _; (split; [reflexivity|apply jerr_id]).
Qed.

(** What holds of the two halves: a line that is not blank and on which
    [json.loads] raises [JSONDecodeError] gets an error object of code
    -32700 that has no ["id"] member, and the world is left as it was; a
    parsed request whose ["id"] is missing or null is answered with
    ["id"] 0. *)
Theorem parse_error_without_id_and_default_id E w :
  (forall line msg,
     strip line <> "" ->
     env_json_loads E (strip line) = JSONDecodeError msg ->
     exists resp err,
       Mcp.main_step E line w = (Returned (Some resp), w) /\
       resp !! "id" = None /\
       resp !! "error" = Some (JDict err) /\
       err !! "code" = Some (JInt (-32700))) /\
  (forall req,
     request_id req = JNull ->
     exists resp w',
       Mcp.handle E req w = (Returned resp, w') /\
       resp !! "id" = Some (JInt 0)).
Proof.
  split.
  - intros line msg Hne Hparse. unfold Mcp.main_step. cbv zeta.
    destruct (strip line =? "")%string eqn:Hs.
    { by apply String.eqb_eq in Hs. }
    rewrite Hparse. eexists _, _. split; [reflexivity|]. by repeat split.
  - intros req Hid. destruct (handle_answers E req w) as (resp & w' & Hh & Hi).
    exists resp, w'. split; [done|]. by rewrite Hid in Hi.
Qed.

Lemma parse_error_without_id_and_default_id_witness :
  (exists resp err,
     Mcp.main_step env_rpc " not json " world0 = (Returned (Some resp), world0) /\
     resp !! "id" = None /\
     resp !! "error" = Some (JDict err) /\
     err !! "code" = Some (JInt (-32700))) /\
  (exists resp w',
     Mcp.handle env_rpc (JDict ∅) world0 = (Returned resp, w') /\
     resp !! "id" = Some (JInt 0)).
Proof.
  split.
  - apply (proj1 (parse_error_without_id_and_default_id env_rpc world0)
             " not json " "Expecting value").
    + vm_compute. discriminate.
    + reflexivity.
  - apply (proj2 (parse_error_without_id_and_default_id env_rpc world0)).
    reflexivity.
Defined.

(** Whatever [json.loads] raises besides [JSONDecodeError] leaves
    [main_step], and with it the loop of [main]: nothing is printed for
    the line or for any line after it. *)
Lemma loads_exception_stops_main E line rest w e :
  strip line <> "" ->
  env_json_loads E (strip line) = LoadsRaises e ->
  Mcp.main_step E line w = (Raised e, w) /\
  Mcp.main E (Returned line :: rest) w = ([], Raised e, w).
Proof.
  intros Hne Hl.
  assert (Mcp.main_step E line w = (Raised e, w)) as Hstep.
  { unfold Mcp.main_step. cbv zeta.
    destruct (strip line =? "")%string eqn:Hs; [by apply String.eqb_eq in Hs|].
    by rewrite Hl. }
  split; [done|]. cbn [Mcp.main]. by rewrite Hstep.
Qed.

(** C9, at the failing input.  The line of 1000 opening brackets is not
    blank and is no JSON; [json.loads] gives up on it with
    [RecursionError], which is not the [JSONDecodeError] that [main]
    catches: no error object is printed, neither for this line nor for
    the well-formed line after it, and [main] ends with the exception. *)
Theorem deep_line_gets_no_parse_error :
  strip deep_line <> "" /\
  (forall v, env_json_loads env_rpc (strip deep_line) <> Parsed v) /\
  exists e,
    Mcp.main_step env_rpc deep_line world0 = (Raised e, world0) /\
    Mcp.main env_rpc [Returned deep_line; Returned "{}"] world0
    = ([], Raised e, world0).
Proof.
  assert (strip deep_line <> "") as Hne by (vm_compute; discriminate).
  split; [exact Hne|]. split.
  - intros v. vm_compute. discriminate.
  - eexists. apply loads_exception_stops_main; [exact Hne|]. vm_compute. reflexivity.
Qed.

(** ** C6: nothing is started for a rejected request *)

(** Every message of the validator is a non-empty string, so the tests
    [if validation_error:] of the adapters see it. *)
Lemma validate_ssh_parameters_msg data msg :
  validate_ssh_parameters data = Some msg ->
  truthy_str (validate_ssh_parameters data) = true /\
  default "" (validate_ssh_parameters data) = msg.
Proof.
  intros H. rewrite H. split; [|reflexivity]. revert H.
  unfold validate_ssh_parameters. cbv zeta.
  repeat (split_if; [by intros [= <-]|]).
  destruct (dict_get data "extra_opts"); try (by intros [= <-]).
  split_if; by intros [= <-].
Qed.

Lemma validate_ssh_directory_msg E d msg :
  validate_ssh_directory E d = Some msg ->
  truthy_str (validate_ssh_directory E d) = true /\
  default "" (validate_ssh_directory E d) = msg /\
  (d =? "")%string = false.
Proof.
  intros H. rewrite H. split; [|split; [reflexivity|]]; revert H;
    unfold validate_ssh_directory; cbv zeta;
    repeat (split_if; try (by intros [= <-])); done.
Qed.


Lemma mcp_tools_call_rejected E params arguments msg w :
  dict_get params "name" = JStr "ssh" ->
  Mcp.py_or (dict_get params "arguments") (JDict ∅) = JDict arguments ->
  mcp_rejected E arguments msg ->
  Mcp.mcp_tools_call E (JDict params) w = (Raised (ValueError msg), w).
Proof.
  intros Hn Ha Hr. unfold Mcp.mcp_tools_call. cbv zeta. rewrite Ha, Hn. cbn [Mcp.is_str].
  rewrite String.eqb_refl. cbn [negb].
  destruct Hr as [(e & Hv & ->)|(Hv & d & e & Hd & He & ->)].
  - destruct (validate_ssh_parameters_msg _ _ Hv) as [-> ->]. reflexivity.
  - rewrite Hv, Hd. cbn [truthy_str].
    destruct (validate_ssh_directory_msg _ _ _ He) as (-> & -> & ->). reflexivity.
Qed.




(** ** C5: the order of the checks *)

Lemma first_violation_at cs data i c msg :
  cs !! i = Some c ->
  c data = Some msg ->
  (forall j c', (j < i)%nat -> cs !! j = Some c' -> c' data = None) ->
  ValidatorSpec.first_violation cs data = Some msg.
Proof.
  revert i. induction cs as [|c0 cs IH]; intros i Hi Hc Hbefore; [done|].
  destruct i as [|i]; cbn in *.
  - injection Hi as ->. by rewrite Hc.
  - rewrite (Hbefore 0%nat c0); [|lia|done].
    apply (IH i); [done|done|].
    intros j c' Hj Hl. apply (Hbefore (S j) c'); [lia|done].
Qed.

Lemma first_violation_none cs data :
  (forall c, In c cs -> c data = None) -> ValidatorSpec.first_violation cs data = None.
Proof.
  induction cs as [|c0 cs IH]; intros H; [done|]. cbn.
  rewrite (H c0); [|by left]. apply IH. intros c Hc. apply H. by right.
Qed.

Section Refinement.
Import ValidatorSpec.
Variable data : gmap string json.
Hypothesis Hport : is_bool (dict_get data "port") = false.
Hypothesis Htimeout : is_bool (dict_get_default data "timeout" (JInt 60)) = false.

Lemma len_zero s : (len s =? 0) = (s =? "")%string.
Proof. by destruct s. Qed.

Lemma leb_not_ltb n m : (m <=? n) = negb (n <? m).
Proof. destruct (Z.leb_spec m n), (Z.ltb_spec n m); try reflexivity; lia. Qed.

Lemma filled_get k : filled data k = truthy (dict_get data k).
Proof. unfold filled, dict_get. by destruct (data !! k). Qed.

Lemma text_field_get k n blank_msg long_msg :
  truthy (dict_get data k) = true ->
  text_field k n blank_msg long_msg data
  = if not_str_or_blank (dict_get data k) then Some blank_msg
    else if not_str_or_longer n (dict_get data k) then Some long_msg
    else None.
Proof.
  unfold text_field, dict_get. destruct (data !! k) as [v|]; [|discriminate].
  intros _. destruct v; try reflexivity. cbn.
  rewrite len_zero, leb_not_ltb.
  destruct (strip s =? "")%string; [done|]. by destruct (n <? len s).
Qed.

Lemma optional_text_get k n msg :
  optional_text k n msg data
  = if negb (is_none (dict_get data k)) && not_str_or_longer n (dict_get data k)
    then Some msg else None.
Proof.
  unfold optional_text, dict_get. destruct (data !! k) as [v|]; [|done].
  destruct v; try reflexivity. cbn.
  rewrite leb_not_ltb. by destruct (n <? len s).
Qed.

Lemma in_range_get lo hi v :
  is_bool v = false -> in_range lo hi v = negb (not_int_or_outside lo hi v).
Proof.
  unfold in_range, not_int_or_outside. destruct v; try done. intros _. cbn.
  rewrite negb_orb, !leb_not_ltb. done.
Qed.

Lemma port_range_get :
  port_range data
  = if negb (is_none (dict_get data "port"))
       && not_int_or_outside 1 65535 (dict_get data "port")
    then Some "Port must be an integer between 1 and 65535" else None.
Proof.
  revert Hport. unfold port_range, dict_get.
  destruct (data !! "port") as [v|]; [|done]. cbn [default]. intros Hv.
  destruct v; cbn [is_none negb andb]; try reflexivity;
    rewrite in_range_get by exact Hv; by destruct (not_int_or_outside _ _ _).
Qed.

Lemma timeout_range_get :
  timeout_range data
  = if not_int_or_outside MIN_TIMEOUT MAX_TIMEOUT (dict_get_default data "timeout" (JInt 60))
    then Some "Timeout must be an integer between 1 and 3600 seconds" else None.
Proof.
  unfold timeout_range. fold (dict_get_default data "timeout" (JInt 60)).
  rewrite in_range_get by exact Htimeout.
  by destruct (not_int_or_outside _ _ _).
Qed.

Lemma strict_mode_get :
  strict_mode data
  = if negb (is_none (dict_get data "strict_host_key_checking"))
       && not_in_strict_modes (dict_get data "strict_host_key_checking")
    then Some "strict_host_key_checking must be one of: yes, no, accept-new" else None.
Proof.
  unfold strict_mode, dict_get.
  destruct (data !! "strict_host_key_checking") as [v|]; [|done].
  destruct v; try reflexivity. cbn.
  destruct (s =? "yes")%string eqn:H1; [apply String.eqb_eq in H1 as ->; done|].
  destruct (s =? "no")%string eqn:H2; [apply String.eqb_eq in H2 as ->; done|].
  destruct (s =? "accept-new")%string eqn:H3; [apply String.eqb_eq in H3 as ->; done|].
  apply String.eqb_neq in H1. apply String.eqb_neq in H2. apply String.eqb_neq in H3.
  cbn. rewrite bool_decide_eq_false_2; [done|].
  intros Hin. rewrite !elem_of_cons, elem_of_nil in Hin. tauto.
Qed.

Lemma tty_flag_get :
  tty_flag data
  = if negb (is_none (dict_get data "allocate_tty"))
       && negb (match dict_get data "allocate_tty" with JBool _ => true | _ => false end)
    then Some "allocate_tty must be a boolean" else None.
Proof.
  unfold tty_flag, dict_get. destruct (data !! "allocate_tty") as [v|]; [|done].
  by destruct v.
Qed.

Lemma forallb_short l :
  forallb short_string l = negb (existsb (not_str_or_longer 256) l).
Proof.
  induction l as [|v l IH]; [done|]. cbn. rewrite IH, negb_orb. f_equal.
  destruct v; try reflexivity. cbn. apply leb_not_ltb.
Qed.

Lemma extra_opts_list_get :
  extra_opts_list data
  = match dict_get data "extra_opts" with
    | JNull => None
    | JList opts =>
        if existsb (not_str_or_longer 256) opts then
          Some "Each extra_opts item must be a string with maximum 256 characters"
        else None
    | _ => Some "extra_opts must be an array"
    end.
Proof.
  unfold extra_opts_list, dict_get. destruct (data !! "extra_opts") as [v|]; [|done].
  destruct v; try reflexivity. cbn. rewrite forallb_short.
  by destruct (existsb _ _).
Qed.

(** Where [port] and [timeout] are no booleans, the validator computes
    the first violation in the amended order. *)
Lemma validate_first_violation :
  validate_ssh_parameters data = first_violation amended_order data.
Proof.
  unfold validate_ssh_parameters. cbv zeta.
  unfold MAX_HOST_LENGTH, MAX_COMMAND_LENGTH, MAX_USER_LENGTH, MAX_SSH_DIR_LENGTH.
  cbn [first_violation amended_order constraint_order List.tl].
  unfold required_filled. rewrite !filled_get.
  destruct (truthy (dict_get data "host")) eqn:Hh; cbn [negb]; [|done].
  destruct (truthy (dict_get data "command")) eqn:Hc; cbn [negb]; [|done].
  rewrite (text_field_get "host" _ _ _ Hh), (text_field_get "command" _ _ _ Hc).
  rewrite !optional_text_get, port_range_get, timeout_range_get, strict_mode_get,
    tty_flag_get, extra_opts_list_get.
  repeat (split_if; [reflexivity|]).
  destruct (dict_get data "extra_opts"); try reflexivity.
  by destruct (existsb _ _).
Qed.

End Refinement.

(** C5, counterexample.  With the constraints in the words of the
    specification, the first constraint that [{host: "", command: "ls"}]
    violates is the one on the host (it is present, and empty), yet the
    validator answers with the message of the required-fields stage; and
    [{..., port: true}] violates the port constraint (a boolean is no
    integer), yet the validator answers [None]. *)
Lemma validator_departs_from_specified_constraints :
  ValidatorSpec.first_violation ValidatorSpec.constraint_order data_blank_host
    = Some "Host must be a non-empty string" /\
  validate_ssh_parameters data_blank_host = Some "Missing required parameter: host" /\
  ValidatorSpec.first_violation ValidatorSpec.constraint_order data_bool_port
    = Some "Port must be an integer between 1 and 65535" /\
  validate_ssh_parameters data_bool_port = None.
Proof. repeat split; reflexivity. Qed.

(** C5, amended.  For an input whose [port] and [timeout] are no JSON
    booleans, in the order required fields filled (present and not
    empty, zero or false), host, command, user, port, timeout, ssh_dir,
    strict_host_key_checking, proxy_jump, allocate_tty, extra_opts: when
    [data] violates a constraint and none before it, the validator
    returns the message of that constraint, whatever later constraints
    [data] violates as well; when [data] violates none, it returns
    [None]. *)
Theorem validate_reports_first_violation (data : gmap string json)
    (Hport : is_bool (dict_get data "port") = false)
    (Htimeout : is_bool (dict_get_default data "timeout" (JInt 60)) = false) :
  (forall i c msg,
     ValidatorSpec.amended_order !! i = Some c ->
     c data = Some msg ->
     (forall j c', (j < i)%nat -> ValidatorSpec.amended_order !! j = Some c' ->
                   c' data = None) ->
     validate_ssh_parameters data = Some msg) /\
  ((forall c, In c ValidatorSpec.amended_order -> c data = None) ->
   validate_ssh_parameters data = None).
Proof.
  rewrite (validate_first_violation data Hport Htimeout). split.
  - intros i c msg. apply first_violation_at.
  - apply first_violation_none.
Qed.

Lemma validate_reports_first_violation_witness :
  validate_ssh_parameters data_two_faults
    = Some "Port must be an integer between 1 and 65535" /\
  validate_ssh_parameters data_sleep = None.
Proof.
  split.
  - apply (proj1 (validate_reports_first_violation data_two_faults eq_refl eq_refl)
             4%nat ValidatorSpec.port_range).
    + reflexivity.
    + reflexivity.
    + intros j c' Hj Hl.
      do 4 (destruct j as [|j]; [injection Hl as <-; reflexivity|]). lia.
  - apply (proj2 (validate_reports_first_violation data_sleep eq_refl eq_refl)).
    intros c Hc.
    repeat (destruct Hc as [<-|Hc]; [reflexivity|]). destruct Hc.
Defined.

(** * Further properties *)

(** ** What the validator lets through *)

(** The keyword arguments are the members of [data]. *)
Lemma call_args_inv data dir a :
  call_args data dir = Some a ->
  dict_get data "host" = JStr (host a) /\
  dict_get data "command" = JStr (command a) /\
  opt_str (dict_get data "user") = Some (user a) /\
  opt_pyint (dict_get data "port") = Some (port a) /\
  opt_str (dict_get data "strict_host_key_checking") = Some (strict_host_key_checking a) /\
  opt_str (dict_get data "proxy_jump") = Some (proxy_jump a) /\
  opt_strs (dict_get data "extra_opts") = Some (extra_opts a) /\
  as_int (dict_get_default data "timeout" (JInt 60)) = Some (timeout a) /\
  allocate_tty a = truthy (dict_get data "allocate_tty") /\
  ssh_dir a = dir.
Proof.
  unfold call_args. intros H.
  repeat match type of H with
         | match ?x with _ => _ end = Some _ => destruct x eqn:?; try discriminate
         end.
  injection H as <-. cbn. by repeat split.
Qed.

Lemma all_str_In l xs x :
  all_str l = Some xs -> In x xs -> In (JStr x) l.
Proof.
  revert xs. induction l as [|v l IH]; intros xs H Hin.
  - injection H as <-. destruct Hin.
  - destruct v; try discriminate. cbn in H.
    destruct (all_str l) as [ys|]; [|discriminate]. injection H as <-.
    destruct Hin as [->|Hin]; [by left|right; by apply (IH ys)].
Qed.

Lemma strip_nonblank s : (len (strip s) =? 0) = false -> strip s <> "".
Proof. intros H Heq. rewrite Heq in H. discriminate. Qed.

(** X1.  Every argument a validated request hands to [exec_ssh] is within
    the bounds of the validator: host and command are not blank and have
    at most 253 and 8192 characters, a user at most 32, a port is between
    1 and 65535, the timeout between 1 and 3600, a host-key mode is one of
    the three, a jump host has at most 253 characters and every extra
    option at most 256. *)
Theorem validated_args_within_bounds data dir a
    (Hvalid : validate_ssh_parameters data = None)
    (Hargs : call_args data dir = Some a) :
  strip (host a) <> "" /\ at_most 253 (host a) /\
  strip (command a) <> "" /\ at_most 8192 (command a) /\
  (forall u, user a = Some u -> at_most 32 u) /\
  (forall p, port a = Some p -> 1 <= pyint_val p <= 65535) /\
  1 <= timeout a <= 3600 /\
  (forall v, strict_host_key_checking a = Some v ->
             v = "yes" \/ v = "no" \/ v = "accept-new") /\
  (forall j, proxy_jump a = Some j -> at_most 253 j) /\
  (forall xs x, extra_opts a = Some xs -> In x xs -> at_most 256 x).
Proof.
  destruct (call_args_inv _ _ _ Hargs)
    as (Hh & Hc & Hu & Hp & Hs & Hj & Hx & Ht & _ & _).
  pose proof (validated_strict_nonempty data) as Hmode.
  specialize (Hmode) with (1 := Hvalid).
  apply validate_None_inv in Hvalid as [_ _ Vhs Vhl Vcs Vcl Vu Vp Vt _ _ Vj _ Vx].
  rewrite Hh in Vhs, Vhl. rewrite Hc in Vcs, Vcl. cbn in Vhs, Vhl, Vcs, Vcl.
  unfold at_most, MAX_HOST_LENGTH, MAX_COMMAND_LENGTH, MAX_USER_LENGTH,
    MIN_TIMEOUT, MAX_TIMEOUT in *.
  split; [by apply strip_nonblank|]. split; [lia|].
  split; [by apply strip_nonblank|]. split; [lia|].
  split.
  { intros u Hua. rewrite Hua in Hu.
    destruct (dict_get data "user"); try discriminate. injection Hu as ->.
    cbn in Vu. lia. }
  split.
  { intros p Hpa. rewrite Hpa in Hp. unfold not_int_or_outside in Vp.
    destruct (dict_get data "port"); try discriminate;
      injection Hp as <-; cbn in Vp |- *.
    - destruct b; cbn in Vp; [lia|discriminate].
    - lia. }
  split.
  { unfold not_int_or_outside in Vt. rewrite Ht in Vt. lia. }
  split.
  { intros v Hva. rewrite Hva in Hs.
    destruct (dict_get data "strict_host_key_checking") eqn:Hd; try discriminate.
    injection Hs as ->. by destruct (Hmode v eq_refl). }
  split.
  { intros j Hja. rewrite Hja in Hj.
    destruct (dict_get data "proxy_jump"); try discriminate. injection Hj as ->.
    cbn in Vj. lia. }
  intros xs x Hxa Hin. rewrite Hxa in Hx.
  destruct (dict_get data "extra_opts") as [| | | | |l|]; try discriminate.
  cbn in Hx. destruct (all_str l) as [ys|] eqn:Hl; [|discriminate].
  injection Hx as ->.
  pose proof (all_str_In _ _ _ Hl Hin) as Hmem.
  assert (not_str_or_longer 256 (JStr x) = false) as Hb.
  { destruct (not_str_or_longer 256 (JStr x)) eqn:Hb; [|done].
    assert (existsb (not_str_or_longer 256) l = true) as Ht'
      by (apply existsb_exists; eauto).
    congruence. }
  cbn in Hb. lia.
Qed.

Lemma validated_args_within_bounds_witness :
  strip (host args_strict) <> "" /\ at_most 253 (host args_strict) /\
  strip (command args_strict) <> "" /\ at_most 8192 (command args_strict) /\
  (forall u, user args_strict = Some u -> at_most 32 u) /\
  (forall p, port args_strict = Some p -> 1 <= pyint_val p <= 65535) /\
  1 <= timeout args_strict <= 3600 /\
  (forall v, strict_host_key_checking args_strict = Some v ->
             v = "yes" \/ v = "no" \/ v = "accept-new") /\
  (forall j, proxy_jump args_strict = Some j -> at_most 253 j) /\
  (forall xs x, extra_opts args_strict = Some xs -> In x xs -> at_most 256 x).
Proof.
  apply (validated_args_within_bounds data_strict None args_strict); reflexivity.
Defined.

(** ** Members the validator does not read, null members, booleans *)

Lemma dict_get_insert_eq (data : gmap string json) k v :
  dict_get (<[k:=v]> data) k = v.
Proof. unfold dict_get. by rewrite lookup_insert_eq. Qed.

Lemma dict_get_insert_ne (data : gmap string json) k k' v :
  k <> k' -> dict_get (<[k:=v]> data) k' = dict_get data k'.
Proof. intros H. unfold dict_get. by rewrite lookup_insert_ne. Qed.

Lemma dict_get_default_insert_ne (data : gmap string json) k k' v d :
  k <> k' -> dict_get_default (<[k:=v]> data) k' d = dict_get_default data k' d.
Proof. intros H. unfold dict_get_default. by rewrite lookup_insert_ne. Qed.

Lemma dict_get_delete_ne (data : gmap string json) k k' :
  k <> k' -> dict_get (delete k data) k' = dict_get data k'.
Proof. intros H. unfold dict_get. by rewrite lookup_delete_ne. Qed.

Lemma dict_get_delete_eq (data : gmap string json) k :
  dict_get (delete k data) k = JNull.
Proof. unfold dict_get. by rewrite lookup_delete_eq. Qed.

Lemma dict_get_default_delete_ne (data : gmap string json) k k' d :
  k <> k' -> dict_get_default (delete k data) k' d = dict_get_default data k' d.
Proof. intros H. unfold dict_get_default. by rewrite lookup_delete_ne. Qed.

(** Two inputs on which every [data.get] of the validator agrees get the
    same verdict. *)
Lemma validate_ext (d1 d2 : gmap string json) :
  (forall k, In k validated_keys -> dict_get d1 k = dict_get d2 k) ->
  dict_get_default d1 "timeout" (JInt 60) = dict_get_default d2 "timeout" (JInt 60) ->
  validate_ssh_parameters d1 = validate_ssh_parameters d2.
Proof.
  intros H Ht. unfold validate_ssh_parameters. cbv zeta.
  rewrite Ht.
  rewrite (H "host"), (H "command"), (H "user"), (H "port"), (H "ssh_dir"),
    (H "strict_host_key_checking"), (H "proxy_jump"), (H "allocate_tty"),
    (H "extra_opts") by (cbn; tauto).
  reflexivity.
Qed.

Lemma call_args_ext (d1 d2 : gmap string json) dir :
  (forall k, In k validated_keys -> dict_get d1 k = dict_get d2 k) ->
  dict_get_default d1 "timeout" (JInt 60) = dict_get_default d2 "timeout" (JInt 60) ->
  call_args d1 dir = call_args d2 dir.
Proof.
  intros H Ht. unfold call_args.
  rewrite Ht.
  rewrite (H "host"), (H "command"), (H "user"), (H "port"),
    (H "strict_host_key_checking"), (H "proxy_jump"), (H "allocate_tty"),
    (H "extra_opts") by (cbn; tauto).
  reflexivity.
Qed.

(** X2.  A member whose name is none of the ten the validator reads
    changes neither the verdict nor the arguments handed to [exec_ssh]:
    unknown members are ignored, whatever their value. *)
Theorem unknown_member_ignored (data : gmap string json) k v dir
    (Hunknown : ~ In k validated_keys) :
  validate_ssh_parameters (<[k:=v]> data) = validate_ssh_parameters data /\
  call_args (<[k:=v]> data) dir = call_args data dir.
Proof.
  assert (forall k', In k' validated_keys -> dict_get (<[k:=v]> data) k' = dict_get data k')
    as Hget.
  { intros k' Hin. apply dict_get_insert_ne. intros ->. by apply Hunknown. }
  assert (dict_get_default (<[k:=v]> data) "timeout" (JInt 60)
          = dict_get_default data "timeout" (JInt 60)) as Ht.
  { apply dict_get_default_insert_ne. intros ->. apply Hunknown. cbn. tauto. }
  split; [by apply validate_ext|by apply call_args_ext].
Qed.

Lemma unknown_member_ignored_witness :
  validate_ssh_parameters (<["shell":=JStr "/bin/sh"]> data_two_faults)
    = validate_ssh_parameters data_two_faults /\
  call_args (<["shell":=JStr "/bin/sh"]> data_two_faults) None
    = call_args data_two_faults None.
Proof.
  apply (unknown_member_ignored data_two_faults "shell" (JStr "/bin/sh") None).
  intros H. cbn in H.
  repeat (destruct H as [H|H]; [discriminate H|]). exact H.
Defined.

(** X3.  For every member but [timeout], an explicit null is the same
    as leaving the member out. *)
Theorem null_member_is_absent (data : gmap string json) k
    (Hk : k <> "timeout") :
  validate_ssh_parameters (<[k:=JNull]> data) = validate_ssh_parameters (delete k data).
Proof.
  apply validate_ext.
  - intros k' _. destruct (decide (k = k')) as [<-|Hne].
    + by rewrite dict_get_insert_eq, dict_get_delete_eq.
    + by rewrite dict_get_insert_ne, dict_get_delete_ne.
  - by rewrite dict_get_default_insert_ne, dict_get_default_delete_ne.
Qed.

Lemma null_member_is_absent_witness :
  validate_ssh_parameters (<["port":=JNull]> data_two_faults)
  = validate_ssh_parameters (delete "port" data_two_faults).
Proof.
  apply (null_member_is_absent data_two_faults "port"). discriminate.
Defined.

(** X4.  [timeout] is the exception: an input with [timeout] null is
    never valid, while taking [timeout] out of a valid input leaves it
    valid (the default 60 applies). *)
Theorem null_timeout_rejected (data : gmap string json) :
  validate_ssh_parameters (<["timeout":=JNull]> data) <> None /\
  (validate_ssh_parameters data = None ->
   validate_ssh_parameters (delete "timeout" data) = None).
Proof.
  split.
  - intros H%validate_None_inv. pose proof (v_timeout _ H) as Ht.
    unfold dict_get_default in Ht. rewrite lookup_insert_eq in Ht. discriminate.
  - intros H%validate_None_inv. apply Validated_valid.
    destruct H as [H1 H2 H3 H4 H5 H6 H7 H8 _ H10 H11 H12 H13 H14].
    split; rewrite ?dict_get_delete_ne by discriminate; try assumption.
    unfold dict_get_default. by rewrite lookup_delete_eq.
Qed.

Lemma null_timeout_rejected_witness :
  validate_ssh_parameters (<["timeout":=JNull]> data_sleep) <> None /\
  validate_ssh_parameters (delete "timeout" data_sleep) = None.
Proof.
  split.
  - apply (proj1 (null_timeout_rejected data_sleep)).
  - apply (proj2 (null_timeout_rejected data_sleep)). reflexivity.
Defined.

Lemma validated_insert_port (data : gmap string json) v :
  Validated data ->
  negb (is_none v) && not_int_or_outside 1 65535 v = false ->
  Validated (<["port":=v]> data).
Proof.
  intros [H1 H2 H3 H4 H5 H6 H7 H8 H9 H10 H11 H12 H13 H14] Hv.
  split; rewrite ?dict_get_insert_ne, ?dict_get_default_insert_ne by discriminate;
    try assumption.
  by rewrite dict_get_insert_eq.
Qed.

(** X5.  Booleans count as integers: a valid request stays valid with
    [port] set to JSON [true], and [exec_ssh] is then given the option
    ["-p"; "True"]; with [port] set to [false] the request is refused. *)
Theorem boolean_port E (data : gmap string json) dir
    (Hvalid : validate_ssh_parameters data = None) :
  validate_ssh_parameters (<["port":=JBool true]> data) = None /\
  (exists a pre post,
     call_args (<["port":=JBool true]> data) dir = Some a /\
     ssh_argv E a = (pre ++ ["-p"; "True"] ++ post)%list) /\
  validate_ssh_parameters (<["port":=JBool false]> data)
    = Some "Port must be an integer between 1 and 65535".
Proof.
  assert (validate_ssh_parameters (<["port":=JBool true]> data) = None) as Htrue.
  { apply Validated_valid, validated_insert_port; [by apply validate_None_inv|done]. }
  split; [exact Htrue|]. split.
  - destruct (call_args_validated _ dir Htrue) as [a Ha].
    destruct (call_args_inv _ _ _ Ha) as (_ & _ & _ & Hp & _).
    rewrite dict_get_insert_eq in Hp. cbn in Hp. injection Hp as Hp.
    exists a, ("ssh" :: EPHEMERAL_DEFAULTS),
      (config_opts E a ++ strict_opts a ++ jump_opts a ++ tty_opts a
         ++ default [] (extra_opts a) ++ [ssh_target a; "--"; command a])%list.
    split; [done|]. unfold ssh_argv. rewrite ssh_opts_stages.
    unfold port_opts. rewrite <- Hp. cbn [pyint_val pyint_str negb Z.eqb].
    rewrite <- !app_assoc. reflexivity.
  - apply validate_None_inv in Hvalid as [H1 H2 H3 H4 H5 H6 H7 _ H9 _ _ _ _ _].
    unfold validate_ssh_parameters. cbv zeta.
    rewrite ?dict_get_insert_ne, ?dict_get_default_insert_ne by discriminate.
    rewrite H1, H2, H3, H4, H5, H6, H7. cbn [negb].
    by rewrite dict_get_insert_eq.
Qed.

Lemma boolean_port_witness :
  validate_ssh_parameters (<["port":=JBool true]> data_sleep) = None /\
  (exists a pre post,
     call_args (<["port":=JBool true]> data_sleep) None = Some a /\
     ssh_argv env_hang a = (pre ++ ["-p"; "True"] ++ post)%list) /\
  validate_ssh_parameters (<["port":=JBool false]> data_sleep)
    = Some "Port must be an integer between 1 and 65535".
Proof.
  apply (boolean_port env_hang data_sleep None). reflexivity.
Defined.

(** ** More on [validate_ssh_directory] *)

(** X6.  A non-empty [ssh_dir] that passes the check names, after
    expansion, an existing readable directory, and if it contains [".."]
    or starts with ["/"] its expansion starts with an allow-listed
    prefix. *)
Theorem accepted_directory_is_readable E d
    (Hgiven : d <> "")
    (Hok : validate_ssh_directory E d = None) :
  env_isdir E (expanduser E d) = true /\
  env_readable E (expanduser E d) = true /\
  (contains ".." d = true \/ startswith d "/" = true ->
   exists p, In p (allowed_prefixes E) /\ startswith (expanduser E d) p = true).
Proof.
  revert Hok. unfold validate_ssh_directory.
  destruct (d =? "")%string eqn:Hd; [by apply String.eqb_eq in Hd|].
  destruct (contains ".." d || startswith d "/") eqn:Hs; cbn [andb].
  - destruct (existsb _ _) eqn:Hex; cbn [negb]; [|discriminate].
    destruct (env_isdir E _); cbn [negb]; [|discriminate].
    destruct (env_readable E _); cbn [negb]; [|discriminate].
    intros _. split; [done|]. split; [done|]. intros _.
    by apply existsb_exists in Hex.
  - destruct (env_isdir E _); cbn [negb]; [|discriminate].
    destruct (env_readable E _); cbn [negb]; [|discriminate].
    intros _. split; [done|]. split; [done|].
    intros [H|H]; rewrite H in Hs; cbn in Hs; [discriminate|].
    by rewrite orb_true_r in Hs.
Qed.

Lemma accepted_directory_is_readable_witness :
  env_isdir env_hang (expanduser env_hang "~/.ssh") = true /\
  env_readable env_hang (expanduser env_hang "~/.ssh") = true /\
  (contains ".." "~/.ssh" = true \/ startswith "~/.ssh" "/" = true ->
   exists p, In p (allowed_prefixes env_hang)
             /\ startswith (expanduser env_hang "~/.ssh") p = true).
Proof.
  apply (accepted_directory_is_readable env_hang "~/.ssh").
  - discriminate.
  - reflexivity.
Defined.

Lemma prefix_app p s : String.prefix p (p ++ s) = true.
Proof.
  induction p as [|c p IH]; [by destruct s|].
  change (String.append (String c p) s) with (String c (String.append p s)).
  cbn [String.prefix]. destruct (ascii_dec c c); [exact IH|done].
Qed.

Lemma passes_allow_list E d p :
  In p (allowed_prefixes E) ->
  startswith (expanduser E d) p = true ->
  validate_ssh_directory E d <> Some not_allowed_msg.
Proof.
  intros Hin Hp. unfold validate_ssh_directory.
  destruct (d =? "")%string; [done|].
  assert (existsb (startswith (expanduser E d)) (allowed_prefixes E) = true) as ->.
  { apply existsb_exists. by exists p. }
  rewrite andb_false_r.
  destruct (env_isdir E (expanduser E d)); cbn.
  - destruct (env_readable E (expanduser E d)); cbn; [done|].
    intros H. discriminate H.
  - intros H. discriminate H.
Qed.

Lemma substring_all s : String.substring 0 (String.length s) s = s.
Proof. induction s as [|c s IH]; [done|]. cbn. by rewrite IH. Qed.

Lemma append_nonempty a c b : (String.append a (String c b) =? "")%string = false.
Proof. by destruct a. Qed.

Lemma prefix_empty s : String.prefix "" s = true.
Proof. by destruct s. Qed.

(** [expanduser] on ["~/rest"] where the home directory is known. *)
Lemma expanduser_tilde_slash E h rest :
  env_home E = Some h ->
  expanduser E ("~/" ++ rest) = rstrip_by (Ascii.eqb slash) h ++ "/" ++ rest.
Proof.
  intros Hh. unfold expanduser, startswith, slice_from.
  change ("~/" ++ rest) with (String "~" (String "/" rest)).
  assert (String.prefix "~" (String "~" (String "/" rest)) = true) as ->.
  { cbn. by destruct rest. }
  assert (String.index 1 "/" (String "~" (String "/" rest)) = Some 1%nat) as ->.
  { cbn. by destruct rest. }
  cbn [negb Nat.eqb]. rewrite Hh.
  assert (String.substring 1 (String.length (String "~" (String "/" rest)) - 1)
            (String "~" (String "/" rest)) = String "/" rest) as ->.
  { cbn. by rewrite substring_all. }
  change (String "/" rest) with ("/" ++ rest).
  change ("/" ++ rest) with (String "/" rest) at 1.
  by rewrite append_nonempty.
Qed.

(** [expanduser] on ["~"] where the home directory is known. *)
Lemma expanduser_tilde E h :
  env_home E = Some h ->
  expanduser E "~"
  = if (rstrip_by (Ascii.eqb slash) h =? "")%string then "/"
    else rstrip_by (Ascii.eqb slash) h.
Proof.
  intros Hh. unfold expanduser. cbn. rewrite Hh.
  destruct (rstrip_by (Ascii.eqb slash) h) as [|c r]; [done|].
  change (String.append (String c r) "") with (String c (String.append r "")).
  cbn. f_equal. induction r as [|c' r IH]; [done|].
  change (String.append (String c' r) "") with (String c' (String.append r "")).
  by rewrite IH.
Qed.

(** X7.  Whatever follows ["/home/"], ["/Users/"] or, where the home
    directory is known, ["~/"], the path is never answered with "SSH
    directory path not allowed": segments [".."] after such a beginning
    are not looked at. *)
Theorem allowed_beginning_never_refused E rest :
  validate_ssh_directory E ("/home/" ++ rest) <> Some not_allowed_msg /\
  validate_ssh_directory E ("/Users/" ++ rest) <> Some not_allowed_msg /\
  (forall h, env_home E = Some h ->
             validate_ssh_directory E ("~/" ++ rest) <> Some not_allowed_msg).
Proof.
  split; [|split].
  - apply (passes_allow_list E _ "/home/"); [cbn; tauto|].
    change (expanduser E ("/home/" ++ rest)) with ("/home/" ++ rest).
    apply prefix_app.
  - apply (passes_allow_list E _ "/Users/"); [cbn; tauto|].
    change (expanduser E ("/Users/" ++ rest)) with ("/Users/" ++ rest).
    apply prefix_app.
  - intros h Hh. apply (passes_allow_list E _ (expanduser E "~")); [cbn; tauto|].
    rewrite (expanduser_tilde_slash E h rest Hh), (expanduser_tilde E h Hh).
    unfold startswith.
    destruct (rstrip_by (Ascii.eqb slash) h) as [|c r] eqn:Hr.
    + exact (prefix_app "/" rest).
    + exact (prefix_app (String c r) ("/" ++ rest)).
Qed.

Lemma allowed_beginning_never_refused_witness :
  validate_ssh_directory env_bare ("/home/" ++ "../etc/ssh") <> Some not_allowed_msg /\
  validate_ssh_directory env_bare ("/Users/" ++ "../etc/ssh") <> Some not_allowed_msg /\
  validate_ssh_directory env_bare ("~/" ++ "../etc/ssh") <> Some not_allowed_msg.
Proof.
  destruct (allowed_beginning_never_refused env_bare "../etc/ssh") as (H1 & H2 & H3).
  split; [exact H1|]. split; [exact H2|]. apply (H3 "/root"). reflexivity.
Defined.

(** ** More on [exec_ssh] *)

(** X8.  The argument vector is always, in this order: [ssh], the five
    default option pairs, the port option, the config-file option, the
    host-key override, the jump host, the tty flag, the extra options,
    the target, ["--"], the command; each optional part is present or
    empty as [port_opts], [config_opts], [strict_opts], [jump_opts] and
    [tty_opts] say. *)
Theorem ssh_argv_layout E a :
  ssh_argv E a
  = ("ssh" :: EPHEMERAL_DEFAULTS ++ port_opts a ++ config_opts E a ++ strict_opts a
       ++ jump_opts a ++ tty_opts a ++ default [] (extra_opts a)
       ++ [ssh_target a; "--"; command a])%list.
Proof.
  unfold ssh_argv. rewrite ssh_opts_stages. rewrite <- !app_assoc. reflexivity.
Qed.

(** X9.  One call of [exec_ssh] starts at most one child, the one with
    the argument vector [ssh_argv], and only if [Popen] succeeds.  It
    kills the child exactly when [communicate] times out; when
    [communicate] raises anything else the exception goes to the caller
    and the child is not killed. *)
Theorem exec_ssh_effects E a w :
  exists o w',
    exec_ssh E a w = (o, w') /\
    match env_popen E (ssh_argv E a) with
    | Some e => o = Raised e /\ spawned w' = spawned w /\ killed w' = killed w
    | None =>
        spawned w' = (spawned w ++ [ssh_argv E a])%list /\
        match env_communicate E (ssh_argv E a) (timeout a) with
        | Returned _ => (exists r, o = Returned r) /\ killed w' = killed w
        | Raised (TimeoutExpired _) => (exists r, o = Returned r) /\ killed w' = S (killed w)
        | Raised e => o = Raised e /\ killed w' = killed w
        end
    end.
Proof.
  destruct (env_popen E (ssh_argv E a)) as [e|] eqn:Hp.
  - eexists _, _. split; [by apply exec_ssh_spawn_fails|].
    cbn. by rewrite app_nil_r.
  - destruct (env_communicate E (ssh_argv E a) (timeout a)) as [[[rc out] err]|e] eqn:Hc.
    + eexists _, _. split; [by apply exec_ssh_completes|]. cbn. eauto.
    + destruct e as [m| | | |];
        try (eexists _, _; split;
             [by apply exec_ssh_run_raises|by cbn]).
      eexists _, _. split; [by apply (exec_ssh_timeout E a w m)|]. cbn. eauto.
Qed.

Section Rounding.
Local Open Scope Q_scope.

Lemma round3_cases x :
  exists m : Z, round3 x = (m # 1000) /\
    (inject_Z m - (1#2) <= x * inject_Z 1000 <= inject_Z m + (1#2)).
Proof.
  unfold round3. cbv zeta.
  set (y := x * inject_Z 1000).
  pose proof (Qfloor_le y) as Hlo.
  pose proof (Qlt_floor y) as Hhi.
  rewrite inject_Z_plus in Hhi. change (inject_Z 1) with 1 in Hhi.
  destruct (y - inject_Z (Qfloor y) ?= 1 # 2) eqn:Hc.
  - apply Qeq_alt in Hc.
    destruct (Z.even (Qfloor y)); eexists; (split; [reflexivity|]).
    + lra.
    + rewrite inject_Z_plus. change (inject_Z 1) with 1. lra.
  - apply Qlt_alt in Hc. eexists. split; [reflexivity|]. lra.
  - apply Qgt_alt in Hc. eexists. split; [reflexivity|].
    rewrite inject_Z_plus. change (inject_Z 1) with 1. lra.
Qed.

(** [round(x, 3)] is within half a thousandth of [x]. *)
Lemma round3_close x : x - (1 # 2000) <= round3 x <= x + (1 # 2000).
Proof.
  destruct (round3_cases x) as (m & -> & Hm).
  assert ((m # 1000) == inject_Z m * (1 # 1000)) as ->.
  { unfold Qeq. cbn. lia. }
  change (inject_Z 1000) with (1000 # 1) in Hm.
  lra.
Qed.

Lemma round3_nonneg x : 0 <= x -> 0 <= round3 x.
Proof.
  intros Hx. unfold round3. cbv zeta.
  set (y := x * inject_Z 1000).
  assert (0 <= y) as Hy.
  { unfold y. change (inject_Z 1000) with (1000 # 1). lra. }
  assert (0 <= Qfloor y)%Z as Hf.
  { change 0%Z with (Qfloor 0). by apply Qfloor_resp_le. }
  assert (forall m : Z, (0 <= m)%Z -> 0 <= m # 1000) as Hpos.
  { intros m Hm. unfold Qle. cbn. lia. }
  destruct (y - inject_Z (Qfloor y) ?= 1 # 2); [destruct (Z.even _)| |]; apply Hpos; lia.
Qed.

(** Whatever [exec_ssh] returns has the rounded elapsed time as duration. *)
Lemma exec_ssh_duration E a w r w' :
  exec_ssh E a w = (Returned r, w') ->
  duration_seconds r = round3 (elapsed E w).
Proof.
  destruct (env_popen E (ssh_argv E a)) as [e|] eqn:Hp.
  - by rewrite (exec_ssh_spawn_fails _ _ _ _ Hp).
  - destruct (env_communicate E (ssh_argv E a) (timeout a)) as [[[rc out] err]|e] eqn:Hc.
    + rewrite (exec_ssh_completes _ _ _ _ _ _ Hp Hc). by intros [= <- _].
    + destruct e as [m| | | |];
        try (by rewrite (exec_ssh_run_raises _ _ _ _ Hp Hc)).
      rewrite (exec_ssh_timeout _ _ _ m Hp Hc). by intros [= <- _].
Qed.

(** X10.  The [duration_seconds] of every result of [exec_ssh], on
    completion and on timeout alike, is within half a millisecond of the
    time between its two clock readings, and it is not negative when the
    clock did not run backwards. *)
Theorem duration_tracks_elapsed E a w r w'
    (Hres : exec_ssh E a w = (Returned r, w')) :
  elapsed E w - (1 # 2000) <= duration_seconds r <= elapsed E w + (1 # 2000) /\
  (env_clock E (clock_reads w) <= env_clock E (S (clock_reads w)) ->
   0 <= duration_seconds r).
Proof.
  rewrite (exec_ssh_duration E a w r w' Hres). split.
  - apply round3_close.
  - intros Hmono. apply round3_nonneg. unfold elapsed. lra.
Qed.

Lemma duration_tracks_elapsed_witness :
  exists r,
    elapsed env_hang world0 - (1 # 2000) <= duration_seconds r
      <= elapsed env_hang world0 + (1 # 2000) /\
    (env_clock env_hang (clock_reads world0) <= env_clock env_hang (S (clock_reads world0)) ->
     0 <= duration_seconds r).
Proof.
  eexists.
  apply (duration_tracks_elapsed env_hang args_sleep world0 _
           (after_exec world0 2 [ssh_argv env_hang args_sleep] 1)).
  apply (exec_ssh_timeout env_hang args_sleep world0 "timed out after 1 seconds");
    reflexivity.
Defined.

End Rounding.

(** ** The HTTP adapter on accepted requests *)

Lemma validated_ssh_dir_member (data : gmap string json) dflt :
  validate_ssh_parameters data = None ->
  match dict_get_default data "ssh_dir" (JStr dflt) with
  | JStr _ | JNull => True
  | _ => False
  end.
Proof.
  intros Hv%validate_None_inv. pose proof (v_ssh_dir _ Hv) as H.
  unfold dict_get_default, dict_get in *.
  destruct (data !! "ssh_dir") as [v|]; [|done]. by destruct v.
Qed.

Lemma run_validated_accepted E data w :
  api_accepted E data ->
  Api.run_validated E data w = Api.execute E data (api_ssh_dir E data) w.
Proof.
  intros [Hv Hd]. unfold Api.run_validated, api_ssh_dir. cbv zeta.
  rewrite Hv. cbn [truthy_str].
  pose proof (validated_ssh_dir_member data (Api.SSH_DIR E) Hv) as Hm.
  destruct (dict_get_default data "ssh_dir" (JStr (Api.SSH_DIR E))) as [| | | |d| |];
    try done.
  rewrite (Hd d eq_refl). cbn [truthy_str]. by destruct (d =? "")%string.
Qed.

Lemma run_cmd_accepted E request data w :
  Api.jwt_ok request || Api.key_ok request = true ->
  Api.is_json request = true ->
  Api.get_json request = Returned (JDict data) ->
  api_accepted E data ->
  Api.run_cmd E request w = Api.execute E data (api_ssh_dir E data) w.
Proof.
  intros Hauth Hjson Hbody Hacc. unfold Api.run_cmd.
  rewrite Hauth, Hjson, Hbody. cbn [negb]. by apply run_validated_accepted.
Qed.

(** X11.  An authenticated request that passes both checks, whose child
    is spawned and for which [proc.communicate] returns (the child ends
    within the timeout and its output decodes as text) is answered with
    status 200 and the child's exit code, stdout and stderr as body,
    whatever the exit code; one child was started, none killed. *)
Theorem run_cmd_completed E request data a w rc out err
    (Hauth : Api.jwt_ok request || Api.key_ok request = true)
    (Hjson : Api.is_json request = true)
    (Hbody : Api.get_json request = Returned (JDict data))
    (Hacc : api_accepted E data)
    (Hargs : call_args data (api_ssh_dir E data) = Some a)
    (Hspawn : env_popen E (ssh_argv E a) = None)
    (Hdone : env_communicate E (ssh_argv E a) (timeout a) = Returned (rc, out, err)) :
  Api.run_cmd E request w
  = (Returned {| Api.status := 200;
                 Api.body := Api.ResultBody
                   {| exit_code := rc; stdout := out; stderr := err;
                      duration_seconds := round3 (elapsed E w) |} |},
     after_exec w 2 [ssh_argv E a] 0).
Proof.
  rewrite (run_cmd_accepted E request data w Hauth Hjson Hbody Hacc).
  by apply execute_completes.
Qed.

Lemma run_cmd_completed_witness :
  Api.run_cmd env_exit3 request_sleep world0
  = (Returned {| Api.status := 200;
                 Api.body := Api.ResultBody
                   {| exit_code := 3; stdout := ""; stderr := "Permission denied";
                      duration_seconds := round3 (elapsed env_exit3 world0) |} |},
     after_exec world0 2 [ssh_argv env_exit3 args_sleep] 0).
Proof.
  apply (run_cmd_completed env_exit3 request_sleep data_sleep args_sleep world0
           3 "" "Permission denied"); try reflexivity.
  split; [reflexivity|]. intros d [= <-]. reflexivity.
Defined.

(** X12.  When [Popen] fails with an exception none of the handlers of
    [run_cmd] names (no [ssh] binary, say), an accepted request is
    answered with status 500 and "Internal server error: " followed by
    the text of the exception; no child was started. *)
Theorem run_cmd_spawn_failure E request data a w cls msg
    (Hauth : Api.jwt_ok request || Api.key_ok request = true)
    (Hjson : Api.is_json request = true)
    (Hbody : Api.get_json request = Returned (JDict data))
    (Hacc : api_accepted E data)
    (Hargs : call_args data (api_ssh_dir E data) = Some a)
    (Hspawn : env_popen E (ssh_argv E a) = Some (OtherException cls msg)) :
  exists w',
    Api.run_cmd E request w
    = (Returned (Api.error_response ("Internal server error: " ++ msg) 500), w') /\
    spawned w' = spawned w /\ killed w' = killed w.
Proof.
  rewrite (run_cmd_accepted E request data w Hauth Hjson Hbody Hacc).
  unfold Api.execute, try_except, bind, call_exec_ssh. rewrite Hargs. cbv beta.
  rewrite (exec_ssh_spawn_fails E a w _ Hspawn).
  eexists. split; [reflexivity|]. cbn. by rewrite app_nil_r.
Qed.

Lemma run_cmd_spawn_failure_witness :
  exists w',
    Api.run_cmd env_no_ssh request_sleep world0
    = (Returned (Api.error_response
                  ("Internal server error: "
                   ++ "[Errno 2] No such file or directory: 'ssh'") 500), w') /\
    spawned w' = spawned world0 /\ killed w' = killed world0.
Proof.
  apply (run_cmd_spawn_failure env_no_ssh request_sleep data_sleep args_sleep world0
           "FileNotFoundError"); try reflexivity.
  split; [reflexivity|]. intros d [= <-]. reflexivity.
Defined.

(** A call of [exec_ssh] that returns has started its child. *)
Lemma exec_ssh_returned_spawned E a w r w' :
  exec_ssh E a w = (Returned r, w') ->
  spawned w' = (spawned w ++ [ssh_argv E a])%list.
Proof.
  destruct (env_popen E (ssh_argv E a)) as [e|] eqn:Hp.
  - by rewrite (exec_ssh_spawn_fails _ _ _ _ Hp).
  - destruct (env_communicate E (ssh_argv E a) (timeout a)) as [[[rc out] err]|e] eqn:Hc.
    + rewrite (exec_ssh_completes _ _ _ _ _ _ Hp Hc). by intros [= _ <-].
    + destruct e as [m| | | |];
        try (by rewrite (exec_ssh_run_raises _ _ _ _ Hp Hc)).
      rewrite (exec_ssh_timeout _ _ _ m Hp Hc). by intros [= _ <-].
Qed.

(** X13.  [run_cmd] answers 200 only to an authenticated request whose
    body is an object that passes both checks, and only after exactly one
    child, with the argument vector of that request, was started; the
    body is then a result. *)
Theorem run_cmd_200_only_after_spawn E request w resp w'
    (Hrun : Api.run_cmd E request w = (Returned resp, w'))
    (Hok : Api.status resp = 200) :
  Api.jwt_ok request || Api.key_ok request = true /\
  exists data a r,
    Api.get_json request = Returned (JDict data) /\
    api_accepted E data /\
    call_args data (api_ssh_dir E data) = Some a /\
    Api.body resp = Api.ResultBody r /\
    spawned w' = (spawned w ++ [ssh_argv E a])%list.
Proof.
  revert Hrun. unfold Api.run_cmd.
  destruct (Api.jwt_ok request || Api.key_ok request) eqn:Hauth; cbn [negb];
    [|intros [= <- _]; discriminate].
  destruct (negb _); [intros [= <- _]; discriminate|].
  destruct (Api.get_json request) as [[| | | | | |data]|e];
    try (intros [= <- _]; discriminate); try discriminate.
  split; [done|].
  assert (forall dir, Api.execute E data dir w = (Returned resp, w') ->
            exists a r, call_args data dir = Some a /\
                        Api.body resp = Api.ResultBody r /\
                        spawned w' = (spawned w ++ [ssh_argv E a])%list) as Hexec.
  { intros dir. unfold Api.execute, try_except, bind, call_exec_ssh.
    destruct (call_args data dir) as [a|]; cbv beta.
    - destruct (exec_ssh E a w) as [[r|e] w1] eqn:Hx.
      + intros [= <- <-]. exists a, r. split; [done|]. split; [done|].
        by apply (exec_ssh_returned_spawned E a w r w1).
      + destruct e; intros [= <- _]; discriminate.
    - intros [= <- _]. discriminate. }
  revert Hrun. unfold Api.run_validated. cbv zeta.
  destruct (validate_ssh_parameters data) as [msg|] eqn:Hv.
  { destruct (truthy_str (Some msg)) eqn:Ht; [intros [= <- _]; discriminate|].
    destruct (validate_ssh_parameters_msg data msg Hv) as [Ht' _].
    rewrite Hv in Ht'. congruence. }
  cbn [truthy_str]. unfold api_accepted, api_ssh_dir.
  destruct (dict_get_default data "ssh_dir" (JStr (Api.SSH_DIR E)))
    as [| | | |d| |] eqn:Hdd; try discriminate.
  - intros (a & r & Ha & Hb & Hs)%Hexec. exists data, a, r. rewrite Hdd.
    split; [done|]. split; [split; [done|intros d H; discriminate H]|].
    by repeat split.
  - destruct (d =? "")%string eqn:Hd; cbn [negb].
    + intros (a & r & Ha & Hb & Hs)%Hexec. exists data, a, r. rewrite Hdd, Hd.
      split; [done|].
      split; [split; [done|intros d' [= <-]; by apply String.eqb_eq in Hd as ->]|].
      by repeat split.
    + destruct (validate_ssh_directory E d) as [msg|] eqn:Hdir.
      { destruct (validate_ssh_directory_msg E d msg Hdir) as (Ht & _).
        rewrite Hdir in Ht. rewrite Ht. intros [= <- _]. discriminate. }
      cbn [truthy_str].
      intros (a & r & Ha & Hb & Hs)%Hexec. exists data, a, r. rewrite Hdd, Hd.
      split; [done|]. split; [split; [done|by intros d' [= <-]]|].
      by repeat split.
Qed.

Lemma run_cmd_200_only_after_spawn_witness :
  Api.jwt_ok request_sleep || Api.key_ok request_sleep = true /\
  exists data a r,
    Api.get_json request_sleep = Returned (JDict data) /\
    api_accepted env_hang data /\
    call_args data (api_ssh_dir env_hang data) = Some a /\
    Api.body {| Api.status := 200;
                Api.body := Api.ResultBody
                  (timeout_result (round3 (elapsed env_hang world0))) |}
      = Api.ResultBody r /\
    spawned (after_exec world0 2 [ssh_argv env_hang args_sleep] 1)
    = (spawned world0 ++ [ssh_argv env_hang a])%list.
Proof.
  apply (run_cmd_200_only_after_spawn env_hang request_sleep world0
           {| Api.status := 200;
              Api.body := Api.ResultBody
                (timeout_result (round3 (elapsed env_hang world0))) |}
           (after_exec world0 2 [ssh_argv env_hang args_sleep] 1)).
  - vm_compute. reflexivity.
  - reflexivity.
Defined.

(** ** The JSON-RPC adapter on [tools/call] *)

Lemma validated_py_or_ssh_dir (arguments : gmap string json) dflt :
  validate_ssh_parameters arguments = None ->
  exists d, Mcp.py_or (dict_get arguments "ssh_dir") (JStr dflt) = JStr d.
Proof.
  intros Hv%validate_None_inv. pose proof (v_ssh_dir _ Hv) as H.
  unfold Mcp.py_or. destruct (dict_get arguments "ssh_dir"); try discriminate.
  - by eexists.
  - destruct (truthy (JStr s)); by eexists.
Qed.

Lemma mcp_tools_call_accepted E params arguments w :
  dict_get params "name" = JStr "ssh" ->
  Mcp.py_or (dict_get params "arguments") (JDict ∅) = JDict arguments ->
  mcp_accepted E arguments ->
  Mcp.mcp_tools_call E (JDict params) w
  = Mcp.execute E arguments (mcp_ssh_dir E arguments) w.
Proof.
  intros Hn Ha [Hv Hd]. unfold Mcp.mcp_tools_call, mcp_ssh_dir. cbv zeta.
  rewrite Ha, Hn. cbn [Mcp.is_str]. rewrite String.eqb_refl. cbn [negb].
  rewrite Hv. cbn [truthy_str].
  destruct (validated_py_or_ssh_dir arguments (default "" (env_SSH_DIR E)) Hv) as [d Hp].
  rewrite Hp, (Hd d Hp). cbn [truthy_str]. by destruct (d =? "")%string.
Qed.

(** [handle] on a [tools/call] request for [ssh]: the outcome of
    [mcp_tools_call] wrapped by [jr], or handed to the handlers. *)
Lemma handle_tools_call E req arguments w :
  calls_ssh req arguments ->
  exists params,
    dict_get params "name" = JStr "ssh" /\
    Mcp.py_or (dict_get params "arguments") (JDict ∅) = JDict arguments /\
    forall result w',
      Mcp.mcp_tools_call E (JDict params) w = (Returned result, w') ->
      Mcp.handle E (JDict req) w = (Returned (Mcp.jr (response_id req) result None), w').
Proof.
  intros (Hj & Hm & params & Hp & Hn & Ha). exists params.
  split; [done|]. split; [done|]. intros result w' Hcall.
  unfold Mcp.handle, response_id. cbv zeta. rewrite Hj, Hm, Hp. cbn [Mcp.is_str].
  change ("2.0" =? Mcp.JSONRPC)%string with true. cbn [negb].
  change ("tools/call" =? "initialize")%string with false.
  change ("tools/call" =? "tools/list")%string with false.
  change ("tools/call" =? "tools/call")%string with true. cbv iota.
  unfold try_except, bind. by rewrite Hcall.
Qed.

Lemma mcp_execute_returned E arguments dir a w r w' :
  call_args arguments dir = Some a ->
  exec_ssh E a w = (Returned r, w') ->
  exists result,
    Mcp.execute E arguments dir w = (Returned (JDict result), w') /\
    result !! "isError" = Some (JBool (negb (exit_code r =? 0))) /\
    is_Some (result !! "content").
Proof.
  intros Ha Hx. unfold Mcp.execute, bind, call_exec_ssh. rewrite Ha, Hx.
  eexists. split; [reflexivity|]. split; [reflexivity|]. by eexists.
Qed.

(** X14.  A [tools/call] for [ssh] that passes both checks, whose child
    is spawned and for which [proc.communicate] returns (the child ends
    within the timeout and its output decodes as text) is answered with a
    result (no error member) under the request's identifier; its [isError]
    flag is set exactly when the exit code is not 0.  One child was
    started, none killed. *)
Theorem tools_call_completed E req arguments a w rc out err
    (Hcall : calls_ssh req arguments)
    (Hacc : mcp_accepted E arguments)
    (Hargs : call_args arguments (mcp_ssh_dir E arguments) = Some a)
    (Hspawn : env_popen E (ssh_argv E a) = None)
    (Hdone : env_communicate E (ssh_argv E a) (timeout a) = Returned (rc, out, err)) :
  exists result,
    Mcp.handle E (JDict req) w
    = (Returned (Mcp.jr (response_id req) (JDict result) None),
       after_exec w 2 [ssh_argv E a] 0) /\
    result !! "isError" = Some (JBool (negb (rc =? 0))) /\
    is_Some (result !! "content").
Proof.
  destruct (handle_tools_call E req arguments w Hcall) as (params & Hn & Ha & Hh).
  destruct (mcp_execute_returned E arguments (mcp_ssh_dir E arguments) a w _ _ Hargs
              (exec_ssh_completes E a w rc out err Hspawn Hdone))
    as (result & Hx & Herr & Hcontent).
  exists result. split; [|done]. apply Hh.
  by rewrite (mcp_tools_call_accepted E params arguments w Hn Ha Hacc).
Qed.

Lemma tools_call_completed_witness :
  exists result,
    Mcp.handle env_exit3 (JDict request_sleep_rpc) world0
    = (Returned (Mcp.jr (response_id request_sleep_rpc) (JDict result) None),
       after_exec world0 2 [ssh_argv env_exit3 args_sleep_rpc] 0) /\
    result !! "isError" = Some (JBool (negb (3 =? 0))) /\
    is_Some (result !! "content").
Proof.
  apply (tools_call_completed env_exit3 request_sleep_rpc data_sleep args_sleep_rpc world0
           3 "" "Permission denied"); try reflexivity.
  - split; [reflexivity|]. split; [reflexivity|].
    eexists. split; [reflexivity|]. split; reflexivity.
  - split; [reflexivity|]. intros d [= <-]. reflexivity.
Defined.

(** X15.  When the child of such a call exceeds the timeout, the answer
    is still a result, not a JSON-RPC error: [isError] is true (the exit
    code is the sentinel 124), and the child was started and killed. *)
Theorem tools_call_timeout E req arguments a w m
    (Hcall : calls_ssh req arguments)
    (Hacc : mcp_accepted E arguments)
    (Hargs : call_args arguments (mcp_ssh_dir E arguments) = Some a)
    (Hspawn : env_popen E (ssh_argv E a) = None)
    (Hhang : env_communicate E (ssh_argv E a) (timeout a) = Raised (TimeoutExpired m)) :
  exists result,
    Mcp.handle E (JDict req) w
    = (Returned (Mcp.jr (response_id req) (JDict result) None),
       after_exec w 2 [ssh_argv E a] 1) /\
    result !! "isError" = Some (JBool true) /\
    Mcp.jr (response_id req) (JDict result) None !! "error" = None.
Proof.
  destruct (handle_tools_call E req arguments w Hcall) as (params & Hn & Ha & Hh).
  destruct (mcp_execute_returned E arguments (mcp_ssh_dir E arguments) a w _ _ Hargs
              (exec_ssh_timeout E a w m Hspawn Hhang))
    as (result & Hx & Herr & Hcontent).
  exists result. split; [|by split]. apply Hh.
  by rewrite (mcp_tools_call_accepted E params arguments w Hn Ha Hacc).
Qed.

Lemma tools_call_timeout_witness :
  exists result,
    Mcp.handle env_hang (JDict request_sleep_rpc) world0
    = (Returned (Mcp.jr (response_id request_sleep_rpc) (JDict result) None),
       after_exec world0 2 [ssh_argv env_hang args_sleep_rpc] 1) /\
    result !! "isError" = Some (JBool true) /\
    Mcp.jr (response_id request_sleep_rpc) (JDict result) None !! "error" = None.
Proof.
  apply (tools_call_timeout env_hang request_sleep_rpc data_sleep args_sleep_rpc world0
           "timed out after 1 seconds"); try reflexivity.
  - split; [reflexivity|]. split; [reflexivity|].
    eexists. split; [reflexivity|]. split; reflexivity.
  - split; [reflexivity|]. intros d [= <-]. reflexivity.
Defined.

(** X16.  When [Popen] fails with an exception no handler of [handle]
    names, an accepted call is answered with the error code -32603 and
    "Internal server error: " followed by the text of the exception; no
    child was started. *)
Theorem tools_call_spawn_failure E req arguments a w cls msg
    (Hcall : calls_ssh req arguments)
    (Hacc : mcp_accepted E arguments)
    (Hargs : call_args arguments (mcp_ssh_dir E arguments) = Some a)
    (Hspawn : env_popen E (ssh_argv E a) = Some (OtherException cls msg)) :
  exists w',
    Mcp.handle E (JDict req) w
    = (Returned (Mcp.jerr (response_id req) (-32603)
                   ("Internal server error: " ++ msg) None), w') /\
    spawned w' = spawned w /\ killed w' = killed w.
Proof.
  destruct Hcall as (Hj & Hm & params & Hp & Hn & Ha).
  unfold Mcp.handle, response_id. cbv zeta. rewrite Hj, Hm, Hp. cbn [Mcp.is_str].
  change ("2.0" =? Mcp.JSONRPC)%string with true. cbn [negb].
  change ("tools/call" =? "initialize")%string with false.
  change ("tools/call" =? "tools/list")%string with false.
  change ("tools/call" =? "tools/call")%string with true. cbv iota.
  unfold try_except, bind.
  rewrite (mcp_tools_call_accepted E params arguments w Hn Ha Hacc).
  unfold Mcp.execute, bind, call_exec_ssh. rewrite Hargs.
  rewrite (exec_ssh_spawn_fails E a w _ Hspawn).
  eexists. split; [reflexivity|]. cbn. by rewrite app_nil_r.
Qed.

Lemma tools_call_spawn_failure_witness :
  exists w',
    Mcp.handle env_no_ssh (JDict request_sleep_rpc) world0
    = (Returned (Mcp.jerr (response_id request_sleep_rpc) (-32603)
                   ("Internal server error: "
                    ++ "[Errno 2] No such file or directory: 'ssh'") None), w') /\
    spawned w' = spawned world0 /\ killed w' = killed world0.
Proof.
  apply (tools_call_spawn_failure env_no_ssh request_sleep_rpc data_sleep args_sleep_rpc
           world0 "FileNotFoundError"); try reflexivity.
  - split; [reflexivity|]. split; [reflexivity|].
    eexists. split; [reflexivity|]. split; reflexivity.
  - split; [reflexivity|]. intros d [= <-]. reflexivity.
Defined.

(** ** Error codes of the JSON-RPC adapter *)

Lemma contains_prefix needle s : String.prefix needle s = true -> contains needle s = true.
Proof. intros H. destruct s; cbn [contains]; by rewrite H. Qed.

(** X17.  A [tools/call] for [ssh] whose arguments fail parameter
    validation is answered with the error code -32003 and the message
    "Invalid parameters: " followed by the validator's message, under the
    request's identifier and in the unchanged world. *)
Theorem invalid_arguments_code E req arguments msg w
    (Hcall : calls_ssh req arguments)
    (Hbad : validate_ssh_parameters arguments = Some msg) :
  Mcp.handle E (JDict req) w
  = (Returned (Mcp.jerr (response_id req) (-32003) ("Invalid parameters: " ++ msg) None), w).
Proof.
  destruct Hcall as (Hj & Hm & params & Hp & Hn & Ha).
  unfold Mcp.handle, response_id. cbv zeta. rewrite Hj, Hm, Hp. cbn [Mcp.is_str].
  change ("2.0" =? Mcp.JSONRPC)%string with true. cbn [negb].
  change ("tools/call" =? "initialize")%string with false.
  change ("tools/call" =? "tools/list")%string with false.
  change ("tools/call" =? "tools/call")%string with true. cbv iota.
  unfold try_except, bind.
  rewrite (mcp_tools_call_rejected E params arguments ("Invalid parameters: " ++ msg) w Hn Ha).
  - assert (contains "Invalid parameters:" ("Invalid parameters: " ++ msg) = true) as ->.
    { apply contains_prefix. exact (prefix_app "Invalid parameters:" (" " ++ msg)). }
    reflexivity.
  - left. by exists msg.
Qed.

Lemma invalid_arguments_code_witness :
  Mcp.handle env_hang (JDict request_two_faults) world0
  = (Returned (Mcp.jerr (JInt 7) (-32003)
                 ("Invalid parameters: " ++ "Port must be an integer between 1 and 65535")
                 None), world0).
Proof.
  apply (invalid_arguments_code env_hang request_two_faults data_two_faults
           "Port must be an integer between 1 and 65535" world0).
  - split; [reflexivity|]. split; [reflexivity|].
    eexists. split; [reflexivity|]. split; reflexivity.
  - reflexivity.
Defined.



(** ** Shape of the answers of [handle] *)

Lemma jr_members id_ result :
  Mcp.jr id_ result None !! "jsonrpc" = Some (JStr "2.0") /\
  Mcp.jr id_ result None !! "result" = Some result /\
  Mcp.jr id_ result None !! "error" = None.
Proof. by repeat split. Qed.

Lemma jerr_members id_ code message data :
  Mcp.jerr id_ code message data !! "jsonrpc" = Some (JStr "2.0") /\
  Mcp.jerr id_ code message data !! "result" = None /\
  exists err, Mcp.jerr id_ code message data !! "error" = Some (JDict err) /\
              err !! "code" = Some (JInt code) /\
              err !! "message" = Some (JStr message).
Proof.
  split; [done|]. split; [done|]. unfold Mcp.jerr. cbv zeta.
  destruct data as [d|]; [destruct (truthy (JDict d))|];
    (eexists; split; [reflexivity|]); by split.
Qed.

(** A response of [handle]: made by [jr] or by [jerr]. *)
Lemma handle_shape E req w :
  exists w',
    (exists id_ result, Mcp.handle E req w = (Returned (Mcp.jr id_ result None), w')) \/
    (exists id_ code message data,
       Mcp.handle E req w = (Returned (Mcp.jerr id_ code message data), w')).
Proof.
  unfold Mcp.handle.
  destruct req as [| | | | | |m]; try (eexists; right; by eexists _, _, _, _).
  destruct (negb (Mcp.is_str (dict_get m "jsonrpc") Mcp.JSONRPC)).
  { eexists; right; by eexists _, _, _, _. }
  unfold try_except. cbv zeta.
  destruct (Mcp.is_str (dict_get m "method") "initialize").
  { eexists; left; by eexists _, _. }
  destruct (Mcp.is_str (dict_get m "method") "tools/list").
  { eexists; left; by eexists _, _. }
  destruct (Mcp.is_str (dict_get m "method") "tools/call").
  2: { eexists; right; by eexists _, _, _, _. }
  unfold bind.
  destruct (Mcp.mcp_tools_call E _ w) as [[result|e] w1].
  { eexists; left; by eexists _, _. }
  destruct e as [msg|rc msg|msg|msg|cls msg];
    try (eexists; right; by eexists _, _, _, _).
  destruct (contains "Invalid parameters:" msg);
    [|destruct (contains "SSH directory error:" msg)];
    eexists; right; by eexists _, _, _, _.
Qed.

(** X19.  [handle] answers every parsed request, whatever its shape and
    whatever happens to the child, with an object that has ["jsonrpc"]
    ["2.0"], the request's identifier (0 when that is missing or null,
    never null) and exactly one of the members ["result"] and ["error"];
    an error object carries an integer code and a message. *)
Theorem handle_response_well_formed E req w :
  exists resp w',
    Mcp.handle E req w = (Returned resp, w') /\
    resp !! "jsonrpc" = Some (JStr "2.0") /\
    resp !! "id" = Some (if is_none (request_id req) then JInt 0 else request_id req) /\
    resp !! "id" <> Some JNull /\
    ((is_Some (resp !! "result") /\ resp !! "error" = None) \/
     (resp !! "result" = None /\
      exists err code message,
        resp !! "error" = Some (JDict err) /\
        err !! "code" = Some (JInt code) /\
        err !! "message" = Some (JStr message))).
Proof.
  destruct (handle_answers E req w) as (resp & w' & Hh & Hid).
  exists resp, w'. split; [done|].
  assert (resp !! "id" <> Some JNull) as Hnn.
  { rewrite Hid. by destruct (request_id req). }
  destruct (handle_shape E req w) as (w1 & [(i & r & H)|(i & c & m & d & H)]);
    rewrite Hh in H; injection H as -> ->.
  - destruct (jr_members i r) as (Hj & Hr & He).
    split; [exact Hj|]. split; [exact Hid|]. split; [exact Hnn|]. left.
    split; [exists r; exact Hr|exact He].
  - destruct (jerr_members i c m d) as (Hj & Hr & err & He & Hc & Hm).
    split; [exact Hj|]. split; [exact Hid|]. split; [exact Hnn|]. right.
    split; [exact Hr|]. exists err, c, m. split; [exact He|]. by split.
Qed.

(** X20.  Only [tools/call] reaches [exec_ssh]: any other request (not
    an object, a wrong protocol tag, [initialize], [tools/list], an
    unknown method) is answered in the unchanged world. *)
Theorem only_tools_call_acts E req w
    (Hother : match req with
              | JDict m => Mcp.is_str (dict_get m "method") "tools/call" = false
              | _ => True
              end) :
  exists resp, Mcp.handle E req w = (Returned resp, w).
Proof.
  unfold Mcp.handle.
  destruct req as [| | | | | |m]; try (by eexists).
  destruct (negb (Mcp.is_str (dict_get m "jsonrpc") Mcp.JSONRPC)); [by eexists|].
  unfold try_except. cbv zeta. rewrite Hother.
  destruct (Mcp.is_str (dict_get m "method") "initialize"); [by eexists|].
  destruct (Mcp.is_str (dict_get m "method") "tools/list"); by eexists.
Qed.

Lemma only_tools_call_acts_witness :
  (exists resp, Mcp.handle env_hang (JList []) world0 = (Returned resp, world0)) /\
  (exists resp,
     Mcp.handle env_hang
       (JDict (Mcp.obj [("jsonrpc", JStr "2.0"); ("id", JInt 1);
                        ("method", JStr "tools/list")])) world0
     = (Returned resp, world0)).
Proof.
  split.
  - apply (only_tools_call_acts env_hang (JList []) world0). exact I.
  - apply (only_tools_call_acts env_hang _ world0). reflexivity.
Defined.

(** ** The loop of [main] *)

Lemma main_step_total E line w :
  (forall e, env_json_loads E (strip line) <> LoadsRaises e) ->
  exists o w',
    Mcp.main_step E line w = (Returned o, w') /\
    (if answered line then is_Some o else o = None /\ w' = w).
Proof.
  intros Hloads. unfold Mcp.main_step, answered. cbv zeta.
  destruct (strip line =? "")%string; cbn [negb].
  { by eexists _, _. }
  destruct (env_json_loads E (strip line)) as [req|msg|e].
  - unfold bind. destruct (handle_answers E req w) as (resp & w' & -> & _).
    eexists _, _. split; [reflexivity|]. by eexists.
  - eexists _, _. split; [reflexivity|]. by eexists.
  - by destruct (Hloads e).
Qed.

(** X21.  No exception raised while a request is handled stops [main]:
    when stdin yields lines, [json.loads] raises nothing but
    [JSONDecodeError] on them and [print] succeeds, [main] serves every
    line and ends normally, having printed exactly one response for each
    line that is not blank and none for a blank line. *)
Theorem main_one_response_per_line E lines w
    (Hloads : forall line e, In line lines ->
                env_json_loads E (strip line) <> LoadsRaises e)
    (Hprint : forall resp, env_print E resp = None) :
  exists outs w',
    Mcp.main E (List.map Returned lines) w = (outs, Returned tt, w') /\
    length outs = length (List.filter answered lines).
Proof.
  revert w. induction lines as [|line rest IH]; intros w.
  { by eexists _, _. }
  cbn [Mcp.main List.filter List.map].
  destruct (main_step_total E line w) as (o & w1 & -> & Ho).
  { intros e. apply Hloads. by left. }
  destruct (IH (fun l e Hin => Hloads l e (or_intror Hin)) w1) as (outs & w2 & Hrest & Hlen).
  destruct (answered line).
  - destruct Ho as [resp ->]. rewrite Hprint, Hrest.
    eexists _, _. split; [reflexivity|]. cbn. by rewrite Hlen.
  - destruct Ho as [-> _]. rewrite Hrest. eexists _, _. split; [reflexivity|]. exact Hlen.
Qed.

Lemma main_one_response_per_line_witness :
  exists outs w',
    Mcp.main env_rpc (List.map Returned ["  "; "{}"; "not json"]) world0
    = (outs, Returned tt, w') /\
    length outs = length (List.filter answered ["  "; "{}"; "not json"]).
Proof.
  apply (main_one_response_per_line env_rpc ["  "; "{}"; "not json"] world0).
  - intros line e [<-|[<-|[<-|[]]]]; vm_compute; discriminate.
  - reflexivity.
Defined.

(** X22.  Lines are served strictly one after the other: when the loop
    gets through [l1], the responses to [l1 ++ l2] are those to [l1]
    followed by those to [l2] served in the world [l1] left behind, and
    the loop ends as it does on [l2]. *)
Theorem main_app E l1 l2 w outs1 w1 outs2 ending w2
    (Hfirst : Mcp.main E l1 w = (outs1, Returned tt, w1))
    (Hthen : Mcp.main E l2 w1 = (outs2, ending, w2)) :
  Mcp.main E (l1 ++ l2)%list w = ((outs1 ++ outs2)%list, ending, w2).
Proof.
  revert w outs1 Hfirst. induction l1 as [|item rest IH]; intros w outs1 Hfirst.
  { cbn in Hfirst. injection Hfirst as <- <-. exact Hthen. }
  cbn [app Mcp.main] in *.
  destruct item as [line|e]; [|discriminate].
  destruct (Mcp.main_step E line w) as [[[resp|]|e] wa]; [| |discriminate].
  - destruct (env_print E resp); [discriminate|].
    destruct (Mcp.main E rest wa) as [[outs o] wb] eqn:Hrest.
    injection Hfirst as <- -> <-.
    by rewrite (IH wa outs Hrest).
  - by apply IH.
Qed.

Lemma main_app_witness :
  Mcp.main env_rpc ([Returned "  "; Returned "{}"] ++ [Returned "not json"])%list world0
  = (([Mcp.jerr (JInt 0) (-32600) "Invalid Request" None]
      ++ [Mcp.parse_error_response])%list, Returned tt, world0).
Proof.
  apply (main_app env_rpc [Returned "  "; Returned "{}"] [Returned "not json"]
           world0 _ world0 _ _ world0);
    reflexivity.
Defined.

(** ** Authentication *)

Lemma check_keys_true key valids :
  ApiAuth.check_keys key valids = Returned true -> In key valids.
Proof.
  induction valids as [|v rest IH]; [discriminate|].
  cbn [ApiAuth.check_keys]. unfold ApiAuth.compare_digest.
  destruct (ApiAuth.is_ascii key && ApiAuth.is_ascii v); [|discriminate].
  destruct (key =? v)%string eqn:Heq.
  - intros _. left. symmetry. by apply String.eqb_eq.
  - intros H. right. by apply IH.
Qed.

Lemma API_KEYS_not_blank A k : In k (ApiAuth.API_KEYS A) -> k <> "".
Proof.
  unfold ApiAuth.API_KEYS. intros (s & <- & Hs)%in_map_iff.
  apply filter_In in Hs as [_ Hs]. apply negb_true_iff in Hs.
  by apply String.eqb_neq.
Qed.

Lemma verify_api_key_true A hdrs :
  ApiAuth.verify_api_key A hdrs = Returned true ->
  exists k, ApiAuth.presented_key hdrs = Some k /\ In k (ApiAuth.API_KEYS A).
Proof.
  unfold ApiAuth.verify_api_key. cbv zeta.
  destruct (ApiAuth.presented_key hdrs) as [k|]; [|discriminate].
  destruct (negb (truthy_str (Some k)) || _); [discriminate|].
  cbn [default]. intros Hin%check_keys_true. by exists k.
Qed.

(** X23.  [verify_api_key] answers [True] only if the key the request
    presents (the header [X-API-Key], or else what follows ["ApiKey "] in
    [Authorization]) is one of the configured keys; a configured key is
    never empty. *)
Theorem api_key_sound A hdrs
    (Hyes : ApiAuth.verify_api_key A hdrs = Returned true) :
  exists k, ApiAuth.presented_key hdrs = Some k /\ k <> "" /\ In k (ApiAuth.API_KEYS A).
Proof.
  destruct (verify_api_key_true A hdrs Hyes) as (k & Hp & Hin).
  exists k. split; [done|]. split; [|done]. by apply (API_KEYS_not_blank A).
Qed.

Lemma api_key_sound_witness :
  exists k, ApiAuth.presented_key headers_beta = Some k /\ k <> ""
            /\ In k (ApiAuth.API_KEYS auth_two_keys).
Proof.
  apply (api_key_sound auth_two_keys headers_beta). reflexivity.
Defined.

Lemma check_keys_ascii key valids :
  ApiAuth.is_ascii key = true ->
  forallb ApiAuth.is_ascii valids = true ->
  ApiAuth.check_keys key valids = Returned (existsb (String.eqb key) valids).
Proof.
  intros Hk. induction valids as [|v rest IH]; [done|].
  cbn [forallb existsb ApiAuth.check_keys]. intros [Hv Hr]%andb_true_iff.
  unfold ApiAuth.compare_digest. rewrite Hk, Hv. cbn [andb].
  destruct (key =? v)%string; [done|]. by apply IH.
Qed.

(** X24.  When the presented key and the configured keys are ASCII,
    [verify_api_key] raises nothing and answers [True] exactly when a key
    is presented and equals a configured one; with no key configured it
    answers [False]. *)
Theorem api_key_decides A hdrs
    (Hkey : ApiAuth.is_ascii (default "" (ApiAuth.presented_key hdrs)) = true)
    (Hkeys : forallb ApiAuth.is_ascii (ApiAuth.API_KEYS A) = true) :
  ApiAuth.verify_api_key A hdrs
  = Returned (existsb (String.eqb (default "" (ApiAuth.presented_key hdrs)))
                (ApiAuth.API_KEYS A)
              && truthy_str (ApiAuth.presented_key hdrs)).
Proof.
  unfold ApiAuth.verify_api_key. cbv zeta.
  destruct (truthy_str (ApiAuth.presented_key hdrs)); cbn [negb orb].
  - destruct (ApiAuth.API_KEYS A) as [|v rest] eqn:Hl; [done|].
    rewrite andb_true_r. by apply check_keys_ascii.
  - by rewrite andb_false_r.
Qed.

Lemma api_key_decides_witness :
  ApiAuth.verify_api_key auth_two_keys headers_beta
  = Returned (existsb (String.eqb (default "" (ApiAuth.presented_key headers_beta)))
                (ApiAuth.API_KEYS auth_two_keys)
              && truthy_str (ApiAuth.presented_key headers_beta)).
Proof.
  apply (api_key_decides auth_two_keys headers_beta); reflexivity.
Defined.

(** X25.  A presented key with a character outside ASCII makes
    [verify_api_key] raise a [TypeError] as soon as a key is configured,
    and [run_cmd] with it, in the unchanged world, even when the request
    carries a bearer token: both authentication calls are made before
    their results are looked at. *)
Theorem non_ascii_key_raises A E request k w
    (Hkey : ApiAuth.presented_key (ApiAuth.headers request) = Some k)
    (Hnon : ApiAuth.is_ascii k = false)
    (Hkeys : ApiAuth.API_KEYS A <> []) :
  exists e,
    ApiAuth.verify_api_key A (ApiAuth.headers request) = Raised e /\
    ApiAuth.run_cmd A E request w = (Raised e, w).
Proof.
  assert (k <> "") as Hne by (intros ->; discriminate).
  assert (exists e, ApiAuth.verify_api_key A (ApiAuth.headers request) = Raised e)
    as [e He].
  { unfold ApiAuth.verify_api_key. cbv zeta. rewrite Hkey. cbn [truthy_str default].
    apply String.eqb_neq in Hne. rewrite Hne. cbn [negb orb].
    destruct (ApiAuth.API_KEYS A) as [|v rest]; [done|].
    cbn [ApiAuth.check_keys]. unfold ApiAuth.compare_digest, id. rewrite Hnon.
    by eexists. }
  exists e. split; [done|]. unfold ApiAuth.run_cmd. cbv zeta. by rewrite He.
Qed.

Lemma non_ascii_key_raises_witness :
  exists e,
    ApiAuth.verify_api_key auth_two_keys headers_latin1 = Raised e /\
    ApiAuth.run_cmd auth_two_keys env_hang
      {| ApiAuth.headers := headers_latin1; ApiAuth.raw_is_json := true;
         ApiAuth.raw_get_json := Returned (JDict data_sleep) |} world0
    = (Raised e, world0).
Proof.
  apply (non_ascii_key_raises auth_two_keys env_hang
           {| ApiAuth.headers := headers_latin1; ApiAuth.raw_is_json := true;
              ApiAuth.raw_get_json := Returned (JDict data_sleep) |}
           (String (ascii_of_nat 233) "t") world0).
  - reflexivity.
  - reflexivity.
  - discriminate.
Defined.

Lemma prefix_inv p s : String.prefix p s = true -> exists r, s = String.append p r.
Proof.
  revert s. induction p as [|c p IH]; intros s H; [by exists s|].
  destruct s as [|c' s]; [discriminate H|]. cbn [String.prefix] in H.
  destruct (ascii_dec c c') as [<-|]; [|discriminate H].
  destruct (IH s H) as [r ->]. by exists r.
Qed.

Lemma truthy_dict_nonempty (m : gmap string json) : truthy (JDict m) = true -> m <> ∅.
Proof. intros H ->. cbn in H. by rewrite map_to_list_empty in H. Qed.

(** X26.  Whatever [run_cmd] answers with a status other than 401, it
    answers to a request that carries a bearer token decoding to a
    non-empty payload, or a configured API key; a token whose payload is
    empty does not count. *)
Theorem answered_means_authenticated A E request w resp w'
    (Hrun : ApiAuth.run_cmd A E request w = (Returned resp, w'))
    (Hnot401 : Api.status resp <> 401) :
  (exists token payload,
     ApiAuth.headers request "Authorization" = Some ("Bearer " ++ token) /\
     ApiAuth.jwt_decode A token (ApiAuth.JWT_SECRET A) = Some payload /\
     payload <> ∅) \/
  (exists k, ApiAuth.presented_key (ApiAuth.headers request) = Some k /\
             In k (ApiAuth.API_KEYS A)).
Proof.
  revert Hrun. unfold ApiAuth.run_cmd. cbv zeta.
  destruct (ApiAuth.verify_api_key A (ApiAuth.headers request)) as [auth_key|e] eqn:Hk;
    [|discriminate].
  unfold Api.run_cmd. cbn [Api.jwt_ok Api.key_ok].
  destruct auth_key.
  { intros _. right. by apply verify_api_key_true. }
  rewrite orb_false_r.
  destruct (ApiAuth.verify_jwt A (ApiAuth.headers request "Authorization"))
    as [payload|] eqn:Hj; cbn [negb].
  2: { intros [= <- _]. by destruct Hnot401. }
  destruct (truthy (JDict payload)) eqn:Ht; cbn [negb].
  2: { intros [= <- _]. by destruct Hnot401. }
  intros _. left. revert Hj. unfold ApiAuth.verify_jwt. cbv zeta.
  destruct (ApiAuth.headers request "Authorization") as [h|]; [|discriminate].
  cbn [truthy_str default]. unfold id.
  destruct (negb (negb (h =? "")%string)); cbn [orb]; [intros H; discriminate H|].
  destruct (startswith h "Bearer ") eqn:Hb; cbn [negb]; [|intros H; discriminate H].
  intros Hd. exists (ApiAuth.after_first_space h), payload.
  split; [|split; [done|by apply truthy_dict_nonempty]].
  f_equal. unfold startswith in Hb.
  destruct (prefix_inv _ _ Hb) as [r ->]. reflexivity.
Qed.

Lemma answered_means_authenticated_witness :
  (exists token payload,
     ApiAuth.headers raw_beta "Authorization" = Some ("Bearer " ++ token) /\
     ApiAuth.jwt_decode auth_two_keys token (ApiAuth.JWT_SECRET auth_two_keys)
       = Some payload /\
     payload <> ∅) \/
  (exists k, ApiAuth.presented_key (ApiAuth.headers raw_beta) = Some k /\
             In k (ApiAuth.API_KEYS auth_two_keys)).
Proof.
  apply (answered_means_authenticated auth_two_keys env_hang raw_beta world0
           (Api.error_response "Missing required parameter: command" 400) world0).
  - reflexivity.
  - discriminate.
Defined.
